(** * transfat: the driver [main] of [transfat/main.py]

    [main] is a straight-line script: it reads the runtime arguments and the
    configuration, checks root access and fatsort, finds the device, and then
    runs the transfer stages, the cleanup and the unmount/fatsort steps.  All
    the work is done by functions of the modules [system], [talk], [fatsort],
    [transfer] and [armin]; [main] decides which of them are called, in which
    order and with which arguments, and where the run is aborted.

    The embedding is a trace semantics.  The results of the collaborators are
    given by a [World]; running [main] in a world yields the list of calls it
    made, in order, and how the run ended. *)

From Stdlib Require Import Ascii String List ZArith Bool Lia.
Import ListNotations.
Open Scope string_scope.
Open Scope Z_scope.

(** ** Data *)

(** A path is a Python [str]. *)
Definition Path := string.

(** The namespace returned by [system.getRuntimeArguments]: the attributes
    that [main] reads. *)
Record Args := {
  config_file : string;
  default : bool;
  armin : bool;
  quiet : bool;
  verbose : bool;
  no_fatsort : bool;
  non_interactive : bool;
  sources : list Path;
  destination : Path
}.

(** The settings object: [main] only calls its [getint]. *)
Record Settings := {
  getint : string -> Z
}.

(** Python truth value of an [int]. *)
Definition truthy (n : Z) : bool := negb (n =? 0).

(** Every call that [main] makes, with the arguments it passes. *)
Inductive Event :=
| E_getRuntimeArguments
| E_talk_status (msg : string) (verb : bool)
| E_talk_success (msg : string) (verb : bool)
| E_talk_error (msg : string) (quiet_ : bool)
| E_print (msg : string) (end_ : string)
| E_getConfigurationSettings (file : string) (default_ armin_ quiet_ : bool)
| E_requestRootAccess (cfg : Settings) (non_interactive_ verb : bool)
| E_fatsortAvailable
| E_findDeviceLocations (dest : Path) (non_interactive_ verb quiet_ : bool)
| E_getCorrespondingPathsLists (srcs : list Path) (dest : Path)
                               (verb quiet_ : bool)
| E_filterOutExtensions (fromFiles toFiles : list Path) (cfg : Settings)
                        (non_interactive_ : bool)
| E_convertAudioFiles (fromFiles toFiles : list Path) (cfg : Settings)
                      (non_interactive_ verb quiet_ : bool)
| E_createDirectories (toDirs : list Path) (non_interactive_ verb quiet_ : bool)
| E_copyFiles (fromFiles toFiles : list Path) (cfg : Settings)
              (non_interactive_ verb quiet_ : bool)
| E_armin_rename (mntLoc : Path) (quiet_ : bool)
| E_deleteFiles (tmpFiles : list Path)
| E_deletePaths (srcs : list Path) (promptFlag : Z) (verb quiet_ : bool)
| E_unmount (devLoc : Path) (verb : bool)
| E_fatsort (devLoc : Path) (verb : bool)
| E_abort (status : Z).

(** What the collaborators answer.  Each of them is called at most once in a
    run, so a function of the arguments covers every behaviour.  A
    collaborator is taken to return: an exception raised inside one is not
    modelled.  [getConfigurationSettings] answers [None] for a result that is
    false in Python's sense.  The lists [fromFiles] and [toFiles] are Python
    lists that [filterOutExtensions] and [convertAudioFiles] change in place:
    here they return the new contents, which [main] threads on to the later
    calls.  The collaborators whose result [main] ignores only leave an
    event. *)
Record World := {
  getRuntimeArguments : Args;
  getConfigurationSettings : string -> bool -> bool -> bool -> option Settings;
  requestRootAccess : Settings -> bool -> bool -> bool;
  fatsortAvailable : bool;
  findDeviceLocations : Path -> bool -> bool -> bool -> Path * Path;
  getCorrespondingPathsLists :
    list Path -> Path -> bool -> bool ->
    list Path * list Path * list Path * list Path;
  filterOutExtensions :
    list Path -> list Path -> Settings -> bool -> list Path * list Path;
  convertAudioFiles :
    list Path -> list Path -> Settings -> bool -> bool -> bool ->
    list Path * list Path * list Path;
  unmount : Path -> bool -> bool;
  fatsort : Path -> bool -> bool
}.

(** ** The run monad: a trace of calls and an outcome *)

Inductive Outcome (A : Type) :=
| Returned (a : A)
| Exited (status : Z).
Arguments Returned {A} a.
Arguments Exited {A} status.

Definition Run (A : Type) : Type := list Event * Outcome A.

Definition ret {A} (a : A) : Run A := ([], Returned a).

Definition bind {A B} (m : Run A) (f : A -> Run B) : Run B :=
  match m with
  | (t, Returned a) => let (t', r) := f a in ((t ++ t')%list, r)
  | (t, Exited s) => (t, Exited s)
  end.

Notation "x <- m ;; k" := (bind m (fun x => k))
  (at level 61, m at next level, right associativity).
Notation "' pat <- m ;; k" := (bind m (fun x => match x with pat => k end))
  (at level 61, pat pattern, m at next level, right associativity).
Notation "m ;; k" := (bind m (fun _ => k))
  (at level 61, right associativity).

Definition call (e : Event) : Run unit := ([e], Returned tt).

Definition trace {A} (r : Run A) : list Event := fst r.
Definition outcome {A} (r : Run A) : Outcome A := snd r.

(** Modelled from the spec: [system.abort], defined in [system.py], which is
    not available.  A fatal error stops the run immediately with the given
    status; the code after each [system.abort(1)] relies on it not
    returning. *)
Definition abort {A} (status : Z) : Run A := ([E_abort status], Exited status).

(** The exit status of the process: 0 when [main] returns. *)
Definition exit_status (r : Run unit) : Z :=
  match outcome r with
  | Returned _ => 0
  | Exited s => s
  end.

Module talk.
Definition status (msg : string) (verb : bool) : Run unit :=
  call (E_talk_status msg verb).
Definition success (msg : string) (verb : bool) : Run unit :=
  call (E_talk_success msg verb).
Definition error (msg : string) (quiet_ : bool) : Run unit :=
  call (E_talk_error msg quiet_).
End talk.

Definition nl : string := String (Ascii.ascii_of_nat 10) EmptyString.

Definition print (msg end_ : string) : Run unit := call (E_print msg end_).

Definition when (b : bool) (m : Run unit) : Run unit :=
  if b then m else ret tt.

(** ** [main] *)

Section Main.
Variable w : World.

(** Lines 160-181: temp files, then the sources. *)
Definition cleanup (args : Args) (cfgSettings : Settings)
           (tmpFiles : list Path) : Run unit :=
  talk.status "Removing any temp files" (verbose args) ;;
  call (E_deleteFiles tmpFiles) ;;
  talk.success "temp files removed" (verbose args) ;;
  let deleteSourceSetting := getint cfgSettings "DeleteSources" in
  let promptFlag := deleteSourceSetting - 1 in
  when (truthy deleteSourceSetting
        && negb (non_interactive args && truthy promptFlag))
    (talk.status "Removing source files and directories" (verbose args) ;;
     call (E_deletePaths (sources args) promptFlag
                         (verbose args) (quiet args)) ;;
     talk.success "source files and directories removed" (verbose args)).

(** Lines 183-201. *)
Definition unmount_and_fatsort (args : Args) (devLoc mntLoc : Path)
  : Run unit :=
  when (negb (no_fatsort args))
    (talk.status ("Unmounting " ++ mntLoc) (verbose args) ;;
     call (E_unmount devLoc (verbose args)) ;;
     (if negb (unmount w devLoc (verbose args))
      then talk.error ("Failed to unmount " ++ mntLoc ++ "!") (quiet args) ;;
           abort 1
      else talk.success (mntLoc ++ " unmounted") (verbose args)) ;;
     talk.status ("fatsorting " ++ mntLoc) (verbose args) ;;
     call (E_fatsort devLoc (verbose args)) ;;
     (if negb (fatsort w devLoc (verbose args))
      then talk.error ("Failed to fatsort " ++ mntLoc ++ "!") (quiet args) ;;
           abort 1
      else talk.success (mntLoc ++ " fatsorted") (verbose args))).

(** Lines 107-165: the plan and the transfer stages, up to the deletion of
    the temp files (which is part of [cleanup]). *)
Definition transfer_stages (args : Args) (cfgSettings : Settings)
           (mntLoc : Path) : Run (list Path) :=
  talk.status "Getting lists of source and destination paths"
              (verbose args) ;;
  call (E_getCorrespondingPathsLists (sources args) (destination args)
                                     (verbose args) (quiet args)) ;;
  let '(_, fromFiles, toDirs, toFiles) :=
    getCorrespondingPathsLists w (sources args) (destination args)
                               (verbose args) (quiet args) in
  talk.success "Source and destination locations found" (verbose args) ;;
  talk.status "Filtering out unwanted file types" (verbose args) ;;
  call (E_filterOutExtensions fromFiles toFiles cfgSettings
                              (non_interactive args)) ;;
  let '(fromFiles, toFiles) :=
    filterOutExtensions w fromFiles toFiles cfgSettings
                        (non_interactive args) in
  talk.success "Filtering complete" (verbose args) ;;
  talk.status "Starting to convert any audio files that need it"
              (verbose args) ;;
  call (E_convertAudioFiles fromFiles toFiles cfgSettings
                            (non_interactive args) (verbose args)
                            (quiet args)) ;;
  let '(fromFiles, toFiles, tmpFiles) :=
    convertAudioFiles w fromFiles toFiles cfgSettings
                      (non_interactive args) (verbose args) (quiet args) in
  talk.success "Conversions finished" (verbose args) ;;
  talk.status "Creating destination directories" (verbose args) ;;
  call (E_createDirectories toDirs (non_interactive args) (verbose args)
                            (quiet args)) ;;
  talk.success "Destination directories created" (verbose args) ;;
  talk.status "Copying files" (verbose args) ;;
  call (E_copyFiles fromFiles toFiles cfgSettings (non_interactive args)
                    (verbose args) (quiet args)) ;;
  talk.success "Files copied" (verbose args) ;;
  when (armin args)
    (talk.status "Renaming A State of Trance directories" (verbose args) ;;
     call (E_armin_rename mntLoc (quiet args)) ;;
     talk.success "A State of Trance directories renamed" (verbose args)) ;;
  ret tmpFiles.

(** Lines 54-105: root access, fatsort and the device. *)
Definition preflight (args : Args) (cfgSettings : Settings)
  : Run (Path * Path) :=
  when (negb (no_fatsort args))
    (talk.status "Checking root access" (verbose args) ;;
     call (E_requestRootAccess cfgSettings (non_interactive args)
                               (verbose args)) ;;
     if negb (requestRootAccess w cfgSettings (non_interactive args)
                                (verbose args))
     then talk.error "Failed to run as root!" (quiet args) ;; abort 1
     else talk.success "Running as root" (verbose args)) ;;
  when (negb (quiet args)) (print "This may take a few minutes . . ." nl) ;;
  when (negb (no_fatsort args))
    (talk.status "Checking if fatsort is available" (verbose args) ;;
     call E_fatsortAvailable ;;
     if fatsortAvailable w
     then talk.success "fatsort is available" (verbose args)
     else talk.error "fatsort not found!" (quiet args) ;; abort 1) ;;
  talk.status ("Finding device and mount locations containing '"
               ++ destination args ++ "'") (verbose args) ;;
  call (E_findDeviceLocations (destination args) (non_interactive args)
                              (verbose args) (quiet args)) ;;
  let '(devLoc, mntLoc) :=
    findDeviceLocations w (destination args) (non_interactive args)
                        (verbose args) (quiet args) in
  (if devLoc =? ""
   then talk.error "no FAT device found!" (quiet args) ;; abort 1
   else when (verbose args)
          (print ("Success" ++ nl ++ nl
                  ++ "Found device and mount locations:"
                  ++ nl ++ "device: " ++ devLoc
                  ++ nl ++ "mount: " ++ mntLoc) (nl ++ nl)))%string ;;
  ret (devLoc, mntLoc).

Definition main : Run unit :=
  call E_getRuntimeArguments ;;
  let args := getRuntimeArguments w in
  talk.status ("Reading config file '" ++ config_file args ++ "'")
              (verbose args) ;;
  call (E_getConfigurationSettings (config_file args) (default args)
                                   (armin args) (quiet args)) ;;
  cfgSettings <-
    match getConfigurationSettings w (config_file args) (default args)
                                   (armin args) (quiet args) with
    | None => abort 1
    | Some cfgSettings =>
        talk.success ("'" ++ config_file args ++ "' read") (verbose args) ;;
        ret cfgSettings
    end ;;
  '(devLoc, mntLoc) <- preflight args cfgSettings ;;
  tmpFiles <- transfer_stages args cfgSettings mntLoc ;;
  cleanup args cfgSettings tmpFiles ;;
  unmount_and_fatsort args devLoc mntLoc ;;
  talk.success "All done" (verbose args).
End Main.

(** ** Observing a run *)

(** The calls that delete or may delete sources. *)
Definition is_deletePaths (e : Event) : bool :=
  match e with E_deletePaths _ _ _ _ => true | _ => false end.

(** [deletePaths] is asked to prompt when its flag is true in Python's
    sense, the sense in which [main] itself tests [promptFlag]. *)
Definition requests_prompt (e : Event) : bool :=
  match e with E_deletePaths _ p _ _ => truthy p | _ => false end.

Definition is_deleteFiles (e : Event) : bool :=
  match e with E_deleteFiles _ => true | _ => false end.

Definition is_copyFiles (e : Event) : bool :=
  match e with E_copyFiles _ _ _ _ _ _ => true | _ => false end.

(** The five transfer stages of the spec: filter, convert, create
    directories, copy, temp-file cleanup. *)
Definition is_stage (e : Event) : bool :=
  match e with
  | E_filterOutExtensions _ _ _ _ | E_convertAudioFiles _ _ _ _ _ _
  | E_createDirectories _ _ _ _ | E_copyFiles _ _ _ _ _ _
  | E_deleteFiles _ => true
  | _ => false
  end.

(** Everything from the plan computation on that reads or changes files. *)
Definition is_transfer_work (e : Event) : bool :=
  match e with
  | E_getCorrespondingPathsLists _ _ _ _ | E_armin_rename _ _
  | E_deletePaths _ _ _ _ => true
  | _ => is_stage e
  end.

(** The steps that only a fatsorting run needs. *)
Definition is_fatsort_step (e : Event) : bool :=
  match e with
  | E_requestRootAccess _ _ _ | E_fatsortAvailable
  | E_unmount _ _ | E_fatsort _ _ => true
  | _ => false
  end.

Definition is_unmount_or_fatsort (e : Event) : bool :=
  match e with E_unmount _ _ | E_fatsort _ _ => true | _ => false end.



Definition is_abort (e : Event) : bool :=
  match e with E_abort _ => true | _ => false end.

(** No event of the trace satisfies [p]. *)
Definition never (p : Event -> bool) (t : list Event) : bool :=
  forallb (fun e => negb (p e)) t.

(** What follows the first event that satisfies [p]; empty when there is
    none. *)
Fixpoint after (p : Event -> bool) (t : list Event) : list Event :=
  match t with
  | [] => []
  | e :: t' => if p e then t' else after p t'
  end.

(** What the world answers to the calls of [main], at the arguments that
    [main] passes. *)
Definition configured (w : World) : option Settings :=
  let args := getRuntimeArguments w in
  getConfigurationSettings w (config_file args) (default args) (armin args)
                           (quiet args).

Definition deleteSourceSetting (w : World) : option Z :=
  option_map (fun cfgSettings => getint cfgSettings "DeleteSources")
             (configured w).

Definition device (w : World) : Path * Path :=
  let args := getRuntimeArguments w in
  findDeviceLocations w (destination args) (non_interactive args)
                      (verbose args) (quiet args).

(** The checks of lines 54-99 pass: root access and fatsort when the run
    fatsorts, and a device for the destination. *)
Definition preflight_ok (w : World) (args : Args) (cfgSettings : Settings)
  : bool :=
  (no_fatsort args
   || (requestRootAccess w cfgSettings (non_interactive args) (verbose args)
       && fatsortAvailable w))
  && negb (fst (findDeviceLocations w (destination args)
                  (non_interactive args) (verbose args) (quiet args))
           =? "")%string.

(** The run gets as far as the plan computation. *)
Definition reaches_transfer (w : World) : bool :=
  match configured w with
  | None => false
  | Some cfgSettings => preflight_ok w (getRuntimeArguments w) cfgSettings
  end.

(** The five stages in the order of the spec, each working on the lists as
    the stage before left them: what a run that reaches the transfer is
    expected to call. *)
Definition expected_stages (w : World) (args : Args) (cfgSettings : Settings)
  : list Event :=
  let '(_, fromFiles, toDirs, toFiles) :=
    getCorrespondingPathsLists w (sources args) (destination args)
                               (verbose args) (quiet args) in
  let '(fromFiles', toFiles') :=
    filterOutExtensions w fromFiles toFiles cfgSettings
                        (non_interactive args) in
  let '(fromFiles'', toFiles'', tmpFiles) :=
    convertAudioFiles w fromFiles' toFiles' cfgSettings
                      (non_interactive args) (verbose args) (quiet args) in
  [E_filterOutExtensions fromFiles toFiles cfgSettings (non_interactive args);
   E_convertAudioFiles fromFiles' toFiles' cfgSettings (non_interactive args)
                       (verbose args) (quiet args);
   E_createDirectories toDirs (non_interactive args) (verbose args)
                       (quiet args);
   E_copyFiles fromFiles'' toFiles'' cfgSettings (non_interactive args)
               (verbose args) (quiet args);
   E_deleteFiles tmpFiles].

(** The lists that a call receives as [fromFiles] and [toFiles] have the
    same length. *)
Definition lists_in_step (e : Event) : Prop :=
  match e with
  | E_filterOutExtensions fromFiles toFiles _ _
  | E_convertAudioFiles fromFiles toFiles _ _ _ _
  | E_copyFiles fromFiles toFiles _ _ _ _ =>
      length fromFiles = length toFiles
  | _ => True
  end.

(** The collaborators of the world return lists of the same length, and keep
    them so. *)
Definition keeps_in_step (w : World) : Prop :=
  (forall srcs dest verb quiet_ fromDirs fromFiles toDirs toFiles,
      getCorrespondingPathsLists w srcs dest verb quiet_
      = (fromDirs, fromFiles, toDirs, toFiles) ->
      length fromFiles = length toFiles)
  /\ (forall fromFiles toFiles cfg ni,
         length fromFiles = length toFiles ->
         length (fst (filterOutExtensions w fromFiles toFiles cfg ni))
         = length (snd (filterOutExtensions w fromFiles toFiles cfg ni)))
  /\ (forall fromFiles toFiles cfg ni verb quiet_,
         length fromFiles = length toFiles ->
         let r := convertAudioFiles w fromFiles toFiles cfg ni verb quiet_ in
         length (fst (fst r)) = length (snd (fst r))).

(** The calls of [main] itself outside the phases, and the messages. *)
Definition is_noise (e : Event) : bool :=
  match e with
  | E_getRuntimeArguments | E_getConfigurationSettings _ _ _ _
  | E_talk_status _ _ | E_talk_success _ _ | E_talk_error _ _
  | E_print _ _ | E_abort _ => true
  | _ => false
  end.

Definition ignores_noise (p : Event -> bool) : Prop :=
  forall e, is_noise e = true -> p e = false.

(** The same world with another [no_fatsort] flag. *)
Definition with_no_fatsort (b : bool) (w : World) : World :=
  let a := getRuntimeArguments w in
  {| getRuntimeArguments :=
       {| config_file := config_file a; default := default a;
          armin := armin a; quiet := quiet a; verbose := verbose a;
          no_fatsort := b; non_interactive := non_interactive a;
          sources := sources a; destination := destination a |};
     getConfigurationSettings := getConfigurationSettings w;
     requestRootAccess := requestRootAccess w;
     fatsortAvailable := fatsortAvailable w;
     findDeviceLocations := findDeviceLocations w;
     getCorrespondingPathsLists := getCorrespondingPathsLists w;
     filterOutExtensions := filterOutExtensions w;
     convertAudioFiles := convertAudioFiles w;
     unmount := unmount w;
     fatsort := fatsort w |}.

(** ** Sample worlds *)

Module Sample.
Definition args (ni nofs : bool) : Args :=
  {| config_file := "config.ini"; default := false; armin := false;
     quiet := false; verbose := false; no_fatsort := nofs;
     non_interactive := ni;
     sources := ["/tmp/a.mp3"; "/tmp/b.wav"]; destination := "/mnt/dev" |}.

(** A world where everything succeeds: [d] is the [DeleteSources] setting,
    [b.wav] is converted through the temp file [/tmp/b.mp3]. *)
Definition world (d : Z) (ni nofs : bool) : World :=
  {| getRuntimeArguments := args ni nofs;
     getConfigurationSettings :=
       fun _ _ _ _ => Some {| getint := fun _ => d |};
     requestRootAccess := fun _ _ _ => true;
     fatsortAvailable := true;
     findDeviceLocations := fun _ _ _ _ => ("/dev/sdb1", "/mnt/dev");
     getCorrespondingPathsLists :=
       fun srcs dest _ _ =>
         (srcs, srcs, [dest], ["/mnt/dev/a.mp3"; "/mnt/dev/b.wav"]);
     filterOutExtensions := fun f t _ _ => (f, t);
     convertAudioFiles :=
       fun f t _ _ _ _ =>
         (["/tmp/a.mp3"; "/tmp/b.mp3"],
          ["/mnt/dev/a.mp3"; "/mnt/dev/b.mp3"], ["/tmp/b.mp3"]);
     unmount := fun _ _ => true;
     fatsort := fun _ _ => true |}.

(** The configuration file cannot be read. *)
Definition no_config : World :=
  {| getRuntimeArguments := args false false;
     getConfigurationSettings := fun _ _ _ _ => None;
     requestRootAccess := fun _ _ _ => true;
     fatsortAvailable := true;
     findDeviceLocations := fun _ _ _ _ => ("/dev/sdb1", "/mnt/dev");
     getCorrespondingPathsLists := fun srcs dest _ _ => (srcs, srcs, [], []);
     filterOutExtensions := fun f t _ _ => (f, t);
     convertAudioFiles := fun f t _ _ _ _ => (f, t, []);
     unmount := fun _ _ => true;
     fatsort := fun _ _ => true |}.

End Sample.

(** ** The plan and its mutations ([transfer.py])

    [main] calls [transfer.getCorrespondingPathsLists],
    [transfer.filterOutExtensions] and [transfer.convertAudioFiles]; the
    module [transfer.py] is not available.  The spec describes the three
    functions as PathMapper, ExtensionFilter and AudioConverter, and the
    definitions below follow its sections 4.1 to 4.3. *)

Module transfer.

(** A file tree: what a source path refers to.  The entries of a directory
    are listed in the order of the walk. *)
Set Warnings "-register-all".
Inductive Node :=
| File
| Dir (entries : list (string * Node)).

Definition FileSystem := Path -> option Node.

(** The part of [s] after, and before, the last occurrence of [c]. *)
Fixpoint after_last (c : Ascii.ascii) (s : string) : option string :=
  match s with
  | EmptyString => None
  | String a s' =>
      match after_last c s' with
      | Some r => Some r
      | None => if Ascii.eqb a c then Some s' else None
      end
  end.

Fixpoint before_last (c : Ascii.ascii) (s : string) : option string :=
  match s with
  | EmptyString => None
  | String a s' =>
      match before_last c s' with
      | Some r => Some (String a r)
      | None => if Ascii.eqb a c then Some EmptyString else None
      end
  end.

Definition basename (p : Path) : string :=
  match after_last "/"%char p with Some b => b | None => p end.

Definition dirname (p : Path) : Path :=
  match before_last "/"%char p with Some d => d | None => "" end.

Definition join (a b : Path) : Path :=
  if (b =? "")%string then a else a ++ "/" ++ b.

Definition to_lower (a : Ascii.ascii) : Ascii.ascii :=
  let n := Ascii.nat_of_ascii a in
  if ((65 <=? n) && (n <=? 90))%nat then Ascii.ascii_of_nat (n + 32)
  else a.

Fixpoint lower (s : string) : string :=
  match s with
  | EmptyString => EmptyString
  | String a s' => String (to_lower a) (lower s')
  end.

(** The extension of a path, without the dot and in lower case. *)
Definition extension (p : Path) : string :=
  match after_last "."%char (basename p) with
  | Some e => lower e
  | None => ""
  end.

(** The files under a node, as paths relative to it. *)
Fixpoint walk (n : Node) : list Path :=
  match n with
  | File => [""]
  | Dir entries =>
      (fix walk_entries (es : list (string * Node)) : list Path :=
         match es with
         | [] => []
         | (name, child) :: es' =>
             (map (join name) (walk child) ++ walk_entries es')%list
         end) entries
  end.

(** Keep the first appearance of each path. *)
Fixpoint dedup (seen l : list Path) : list Path :=
  match l with
  | [] => []
  | x :: l' =>
      if existsb (String.eqb x) seen then dedup seen l'
      else x :: dedup (x :: seen) l'
  end.

Record TransferPlan := {
  fromFiles : list Path;
  toDirs : list Path;
  toFiles : list Path
}.

(** Modelled from the spec: PathMapper, section 4.1, for
    [transfer.getCorrespondingPathsLists].  A source that is a regular file
    goes to [destinationRoot/basename(source)]; a file at [rel] under a
    source directory goes to [destinationRoot/basename(sourceDir)/rel], and
    its enclosing directory is required.  [None] is the
    [PathResolutionError]. *)
Fixpoint mapSources (fs : FileSystem) (destinationRoot : Path)
         (srcs : list Path) : option TransferPlan :=
  match srcs with
  | [] => Some {| fromFiles := []; toDirs := []; toFiles := [] |}
  | source :: srcs' =>
      match fs source, mapSources fs destinationRoot srcs' with
      | Some File, Some plan =>
          Some {| fromFiles := source :: fromFiles plan;
                  toDirs := destinationRoot :: toDirs plan;
                  toFiles := join destinationRoot (basename source)
                             :: toFiles plan |}
      | Some (Dir entries), Some plan =>
          let rels := walk (Dir entries) in
          let dest rel :=
            join (join destinationRoot (basename source)) rel in
          Some {| fromFiles := (map (join source) rels
                                ++ fromFiles plan)%list;
                  toDirs := (map (fun rel => dirname (dest rel)) rels
                             ++ toDirs plan)%list;
                  toFiles := (map dest rels ++ toFiles plan)%list |}
      | _, _ => None
      end
  end.

(** Modelled from the spec: the contract [computeTransferPlan] of PathMapper
    for [transfer.getCorrespondingPathsLists]; it fails when the destination
    root is not a directory, and lists each required directory once, in the
    order of first appearance. *)
Definition computeTransferPlan (fs : FileSystem)
           (srcs : list Path) (destinationRoot : Path)
  : option TransferPlan :=
  match fs destinationRoot with
  | Some (Dir _) =>
      match mapSources fs destinationRoot srcs with
      | Some plan =>
          Some {| fromFiles := fromFiles plan;
                  toDirs := dedup [] (toDirs plan);
                  toFiles := toFiles plan |}
      | None => None
      end
  | _ => None
  end.

(** How the configuration treats an extension. *)
Inductive Exclusion := Wanted | Excluded | PromptMarked.

(** Whether the entry with destination [toFile] is removed: a hard exclude
    always; a prompt-marked extension when the run is non-interactive, or
    when the user answers with a skip ([skips toFile = true]). *)
Definition removes (excludedExts : string -> Exclusion)
           (interactive : bool) (skips : Path -> bool) (toFile : Path)
  : bool :=
  match excludedExts (extension toFile) with
  | Wanted => false
  | Excluded => true
  | PromptMarked => if interactive then skips toFile else true
  end.

(** Modelled from the spec: ExtensionFilter, section 4.2, for
    [transfer.filterOutExtensions].  The lists are walked index by index;
    a removed index is removed from both. *)
Fixpoint filterLists (excludedExts : string -> Exclusion)
         (interactive : bool) (skips : Path -> bool)
         (froms tos : list Path) : list Path * list Path :=
  match froms, tos with
  | f :: froms', t :: tos' =>
      let (froms'', tos'') :=
        filterLists excludedExts interactive skips froms' tos' in
      if removes excludedExts interactive skips t
      then (froms'', tos'')
      else (f :: froms'', t :: tos'')
  | _, _ => (froms, tos)
  end.

(** Modelled from the spec: the contract [filterExtensions] of
    ExtensionFilter for [transfer.filterOutExtensions]. *)
Definition filterExtensions (plan : TransferPlan)
           (excludedExts : string -> Exclusion) (interactive : bool)
           (skips : Path -> bool) : TransferPlan :=
  let (froms, tos) :=
    filterLists excludedExts interactive skips
                (fromFiles plan) (toFiles plan) in
  {| fromFiles := froms; toDirs := toDirs plan; toFiles := tos |}.

Record ConversionRule := {
  sourceExt : string;
  targetExt : string
}.

(** The first rule that asks for a conversion of the entry: its source
    extension is the rule's, and its destination is not yet in the rule's
    target format. *)
Definition needs (rule : ConversionRule) (fromFile toFile : Path) : bool :=
  (extension fromFile =? sourceExt rule)%string
  && negb (extension toFile =? targetExt rule)%string.

Definition ruleFor (rules : list ConversionRule) (fromFile toFile : Path)
  : option ConversionRule :=
  find (fun rule => needs rule fromFile toFile) rules.

(** Modelled from the spec: AudioConverter, section 4.3, for
    [transfer.convertAudioFiles].  [converter input target] is the external
    converter: the temp file it produced, or [None] when it failed.  A
    converted entry has its [toFiles] entry rewritten to the temp file,
    which is recorded; a failed one is left as it is, or fails the whole
    run ([None]) when [abortOnFailure] is configured. *)
Fixpoint convertLists (rules : list ConversionRule)
         (converter : Path -> string -> option Path)
         (abortOnFailure : bool) (froms tos : list Path)
  : option (list Path * list Path) :=
  match froms, tos with
  | f :: froms', t :: tos' =>
      match convertLists rules converter abortOnFailure froms' tos' with
      | None => None
      | Some (tos'', temps) =>
          match ruleFor rules f t with
          | None => Some (t :: tos'', temps)
          | Some rule =>
              match converter f (targetExt rule) with
              | Some temp => Some (temp :: tos'', temp :: temps)
              | None =>
                  if abortOnFailure then None else Some (t :: tos'', temps)
              end
          end
      end
  | _, _ => Some (tos, [])
  end.

(** Modelled from the spec: the contract [convertAudio] of AudioConverter
    for [transfer.convertAudioFiles]; the spec gives [interactive] no part
    in the conversion. *)
Definition convertAudio (plan : TransferPlan)
           (rules : list ConversionRule) (interactive : bool)
           (converter : Path -> string -> option Path)
           (abortOnFailure : bool)
  : option (TransferPlan * list Path) :=
  match convertLists rules converter abortOnFailure
                     (fromFiles plan) (toFiles plan) with
  | Some (tos, temps) =>
      Some ({| fromFiles := fromFiles plan; toDirs := toDirs plan;
               toFiles := tos |}, temps)
  | None => None
  end.

(** The invariant of the data model. *)
Definition in_step (plan : TransferPlan) : Prop :=
  length (fromFiles plan) = length (toFiles plan).

(** The scenarios of section 8 of the spec. *)
Definition scenario_fs : FileSystem :=
  fun p =>
    if (p =? "/mnt/dev")%string then Some (Dir [])
    else if (p =? "/tmp/a.mp3")%string then Some File
    else if (p =? "/tmp/b.wav")%string then Some File
    else if (p =? "/tmp/album")%string
         then Some (Dir [("01.flac", File);
                         ("live", Dir [("02.flac", File)])])
    else None.

Definition scenario_sources : list Path := ["/tmp/a.mp3"; "/tmp/b.wav"].

Definition exclude_wav (ext : string) : Exclusion :=
  if (ext =? "wav")%string then Excluded else Wanted.

Definition wav_to_mp3 : list ConversionRule :=
  [{| sourceExt := "wav"; targetExt := "mp3" |}].

Definition scenario_converter (input : Path) (target : string)
  : option Path :=
  Some ("/tmp/transfat/" ++ basename input ++ "." ++ target).

End transfer.

(** ** More observers *)

(** The messages: what [main] tells the user. *)
Definition is_message (e : Event) : bool :=
  match e with
  | E_talk_status _ _ | E_talk_success _ _ | E_talk_error _ _
  | E_print _ _ => true
  | _ => false
  end.

Definition is_talk_error (e : Event) : bool :=
  match e with E_talk_error _ _ => true | _ => false end.

Definition is_print (e : Event) : bool :=
  match e with E_print _ _ => true | _ => false end.

Definition is_fatsortAvailable (e : Event) : bool :=
  match e with E_fatsortAvailable => true | _ => false end.

Definition is_findDeviceLocations (e : Event) : bool :=
  match e with E_findDeviceLocations _ _ _ _ => true | _ => false end.

Definition is_getCorrespondingPathsLists (e : Event) : bool :=
  match e with E_getCorrespondingPathsLists _ _ _ _ => true | _ => false end.

Definition is_armin_rename (e : Event) : bool :=
  match e with E_armin_rename _ _ => true | _ => false end.

Definition is_createDirectories (e : Event) : bool :=
  match e with E_createDirectories _ _ _ _ => true | _ => false end.

(** The copy, the renaming of armin mode and the deletion of the temp
    files. *)
Definition is_copy_rename_delete (e : Event) : bool :=
  is_copyFiles e || is_armin_rename e || is_deleteFiles e.

(** The calls of a trace that are not messages. *)
Definition calls (t : list Event) : list Event :=
  filter (fun e => negb (is_message e)) t.

(** The place of a call in the script of [main], from top to bottom; the
    abort comes last because nothing follows it. *)
Definition rank (e : Event) : nat :=
  match e with
  | E_getRuntimeArguments => 0
  | E_getConfigurationSettings _ _ _ _ => 1
  | E_requestRootAccess _ _ _ => 2
  | E_fatsortAvailable => 3
  | E_findDeviceLocations _ _ _ _ => 4
  | E_getCorrespondingPathsLists _ _ _ _ => 5
  | E_filterOutExtensions _ _ _ _ => 6
  | E_convertAudioFiles _ _ _ _ _ _ => 7
  | E_createDirectories _ _ _ _ => 8
  | E_copyFiles _ _ _ _ _ _ => 9
  | E_armin_rename _ _ => 10
  | E_deleteFiles _ => 11
  | E_deletePaths _ _ _ _ => 12
  | E_unmount _ _ => 13
  | E_fatsort _ _ => 14
  | E_abort _ => 15
  | E_talk_status _ _ | E_talk_success _ _ | E_talk_error _ _
  | E_print _ _ => 0
  end%nat.

(** Strictly increasing. *)
Fixpoint ascending (l : list nat) : bool :=
  match l with
  | [] => true
  | x :: l' =>
      match l' with
      | [] => true
      | y :: _ => (x <? y)%nat && ascending l'
      end
  end.

(** All the numbers of [l] lie between [lo] and [hi]. *)
Definition within (lo hi : nat) (l : list nat) : bool :=
  forallb (fun n => (lo <=? n)%nat && (n <=? hi)%nat) l.

(** The calls of the trace are made in the order of the script, none of
    them twice. *)
Definition in_script_order (t : list Event) : bool :=
  ascending (map rank (calls t)).

(** What a run returned, [d] when it exited. *)
Definition returned {A} (d : A) (r : Run A) : A :=
  match outcome r with
  | Returned a => a
  | Exited _ => d
  end.

(** The call passes on the command line and the settings as they are: the
    flags, the sources and the destination are those of [args], the settings
    are [cfgSettings]; status and success messages are issued under
    [verbose], error messages under [quiet]. *)
Definition well_passed (args : Args) (cfgSettings : Settings) (e : Event)
  : Prop :=
  match e with
  | E_getRuntimeArguments | E_fatsortAvailable | E_abort _ | E_print _ _
  | E_deleteFiles _ => True
  | E_talk_status _ verb | E_talk_success _ verb => verb = verbose args
  | E_talk_error _ quiet_ => quiet_ = quiet args
  | E_getConfigurationSettings file default_ armin_ quiet_ =>
      file = config_file args /\ default_ = default args
      /\ armin_ = armin args /\ quiet_ = quiet args
  | E_requestRootAccess cfg ni verb =>
      cfg = cfgSettings /\ ni = non_interactive args /\ verb = verbose args
  | E_findDeviceLocations dest ni verb quiet_ =>
      dest = destination args /\ ni = non_interactive args
      /\ verb = verbose args /\ quiet_ = quiet args
  | E_getCorrespondingPathsLists srcs dest verb quiet_ =>
      srcs = sources args /\ dest = destination args
      /\ verb = verbose args /\ quiet_ = quiet args
  | E_filterOutExtensions _ _ cfg ni =>
      cfg = cfgSettings /\ ni = non_interactive args
  | E_convertAudioFiles _ _ cfg ni verb quiet_
  | E_copyFiles _ _ cfg ni verb quiet_ =>
      cfg = cfgSettings /\ ni = non_interactive args
      /\ verb = verbose args /\ quiet_ = quiet args
  | E_createDirectories _ ni verb quiet_ =>
      ni = non_interactive args /\ verb = verbose args
      /\ quiet_ = quiet args
  | E_armin_rename _ quiet_ => quiet_ = quiet args
  | E_deletePaths srcs _ verb quiet_ =>
      srcs = sources args /\ verb = verbose args /\ quiet_ = quiet args
  | E_unmount _ verb | E_fatsort _ verb => verb = verbose args
  end.

(** The same world with another filter and another conversion. *)
Definition with_file_stages
           (filterOut : list Path -> list Path -> Settings -> bool ->
                        list Path * list Path)
           (convert : list Path -> list Path -> Settings -> bool -> bool ->
                      bool -> list Path * list Path * list Path)
           (w : World) : World :=
  {| getRuntimeArguments := getRuntimeArguments w;
     getConfigurationSettings := getConfigurationSettings w;
     requestRootAccess := requestRootAccess w;
     fatsortAvailable := fatsortAvailable w;
     findDeviceLocations := findDeviceLocations w;
     getCorrespondingPathsLists := getCorrespondingPathsLists w;
     filterOutExtensions := filterOut;
     convertAudioFiles := convert;
     unmount := unmount w;
     fatsort := fatsort w |}.

(** A sample world by its answers: the arguments, the [DeleteSources]
    setting, root access, fatsort availability, the device, and the results
    of the unmount and of the fatsort. *)
Definition sample_world (a : Args) (d : Z) (root avail : bool)
           (devLoc : Path) (unmounted fatsorted : bool) : World :=
  {| getRuntimeArguments := a;
     getConfigurationSettings :=
       fun _ _ _ _ => Some {| getint := fun _ => d |};
     requestRootAccess := fun _ _ _ => root;
     fatsortAvailable := avail;
     findDeviceLocations := fun _ _ _ _ => (devLoc, "/mnt/dev");
     getCorrespondingPathsLists :=
       fun srcs dest _ _ =>
         (srcs, srcs, [dest], ["/mnt/dev/a.mp3"; "/mnt/dev/b.wav"]);
     filterOutExtensions := fun f t _ _ => (f, t);
     convertAudioFiles := fun f t _ _ _ _ => (f, t, ["/tmp/b.mp3"]);
     unmount := fun _ _ => unmounted;
     fatsort := fun _ _ => fatsorted |}.

Definition sample_args (arm qt vb nofs ni : bool) : Args :=
  {| config_file := "config.ini"; default := false; armin := arm;
     quiet := qt; verbose := vb; no_fatsort := nofs;
     non_interactive := ni;
     sources := ["/tmp/a.mp3"; "/tmp/b.wav"]; destination := "/mnt/dev" |}.

(** A run with [--no-fatsort] in a world where root access is refused,
    fatsort is missing, and the unmount and the fatsort would fail. *)
Definition no_fatsort_world : World :=
  sample_world (sample_args false false false true false)
               1 false false "/dev/sdb1" false false.

(** ** Facts about traces *)

Lemma trace_bind {A B} (m : Run A) (f : A -> Run B) :
  trace (bind m f) =
  (trace m ++ match outcome m with
              | Returned a => trace (f a)
              | Exited _ => []
              end)%list.
Proof.
  destruct m as [t [a | s]]; simpl.
  - destruct (f a); reflexivity.
  - now rewrite app_nil_r.
Qed.

Lemma outcome_bind {A B} (m : Run A) (f : A -> Run B) :
  outcome (bind m f) =
  match outcome m with
  | Returned a => outcome (f a)
  | Exited s => Exited s
  end.
Proof.
  destruct m as [t [a | s]]; simpl; [destruct (f a) |]; reflexivity.
Qed.

Lemma never_app p t1 t2 :
  never p (t1 ++ t2) = never p t1 && never p t2.
Proof. apply forallb_app. Qed.

Lemma never_In p t :
  never p t = true <-> forall e, In e t -> p e = false.
Proof.
  unfold never. rewrite forallb_forall. split; intros H e He.
  - apply negb_true_iff. now apply H.
  - apply negb_true_iff. now apply H.
Qed.

(** [after] cuts the trace at the first event satisfying [p]. *)
Lemma after_split p t :
  existsb p t = true ->
  exists pre e,
    t = (pre ++ e :: after p t)%list /\ p e = true /\ never p pre = true.
Proof.
  induction t as [| x t IH]; simpl; [discriminate |].
  destruct (p x) eqn:Hx; intros H.
  - exists [], x. auto.
  - destruct (IH H) as (pre & e & Ht & He & Hpre).
    exists (x :: pre), e. simpl. rewrite Hx, <- Ht. auto.
Qed.

Lemma never_existsb p t : never p t = negb (existsb p t).
Proof.
  induction t as [| e t IH]; simpl; [reflexivity |].
  rewrite IH. now destruct (p e).
Qed.

Lemma after_app p t1 t2 :
  after p (t1 ++ t2) =
  if existsb p t1 then (after p t1 ++ t2)%list else after p t2.
Proof.
  induction t1 as [| e t1 IH]; simpl; [reflexivity |].
  destruct (p e); [reflexivity | apply IH].
Qed.

(** A predicate that holds of no event of [t] selects nothing from it. *)
Lemma filter_never p t : never p t = true -> filter p t = [].
Proof.
  induction t as [| e t IH]; simpl; [reflexivity |].
  destruct (p e); simpl; [discriminate | exact IH].
Qed.

Lemma never_weaken (p q : Event -> bool) t :
  (forall e, p e = true -> q e = true) ->
  never q t = true -> never p t = true.
Proof.
  intros Hpq. rewrite !never_In. intros H e He.
  destruct (p e) eqn:Hp; [| reflexivity].
  apply Hpq in Hp. rewrite (H e He) in Hp. discriminate.
Qed.

(** ** The phases of [main]

    Each phase branches on a few answers of the world; [phase_cases] opens
    its definition and splits on them. *)

Ltac open_phase :=
  unfold preflight, transfer_stages, cleanup, unmount_and_fatsort,
    talk.status, talk.success, talk.error, print, when.

(** Split on the innermost condition of a scrutinee. *)
Ltac split_on x :=
  lazymatch x with
  | negb ?y => split_on y
  | andb ?y _ => split_on y
  | orb ?y _ => split_on y
  | _ => destruct x eqn:?
  end.

Ltac split_scrutinee :=
  match goal with
  | |- context [match ?x with _ => _ end] =>
      lazymatch x with
      | context [match _ with _ => _ end] => fail
      | _ => split_on x
      end
  end.

Ltac step_run :=
  cbn [bind call ret abort trace outcome fst snd app negb andb orb].

Ltac phase_cases :=
  open_phase; repeat (step_run; try split_scrutinee); step_run.

Section Phases.
Variable w : World.
Variables (args : Args) (cfgSettings : Settings).

Lemma preflight_outcome :
  outcome (preflight w args cfgSettings) =
  if preflight_ok w args cfgSettings
  then Returned (findDeviceLocations w (destination args)
                   (non_interactive args) (verbose args) (quiet args))
  else Exited 1.
Proof.
  unfold preflight_ok. phase_cases; simpl; reflexivity.
Qed.

Lemma preflight_no_work :
  never is_transfer_work (trace (preflight w args cfgSettings)) = true.
Proof. phase_cases; reflexivity. Qed.

Lemma preflight_no_unmount :
  never is_unmount_or_fatsort (trace (preflight w args cfgSettings)) = true.
Proof. phase_cases; reflexivity. Qed.


Lemma preflight_no_fatsort_step :
  no_fatsort args = true ->
  never is_fatsort_step (trace (preflight w args cfgSettings)) = true.
Proof. intros H. open_phase. rewrite H. phase_cases; reflexivity. Qed.

(** When [preflight] stops the run, the abort is the last thing it does. *)
Lemma preflight_abort_last :
  preflight_ok w args cfgSettings = false ->
  last (trace (preflight w args cfgSettings)) E_getRuntimeArguments
  = E_abort 1.
Proof.
  unfold preflight_ok.
  phase_cases; simpl; try discriminate; reflexivity.
Qed.

Variable mntLoc : Path.

(** The transfer stages always return, with the temp files that
    [convertAudioFiles] returned, and call the expected stages. *)
Lemma transfer_stages_run :
  exists tmpFiles,
    outcome (transfer_stages w args cfgSettings mntLoc) = Returned tmpFiles
    /\ (filter is_stage (trace (transfer_stages w args cfgSettings mntLoc))
        ++ [E_deleteFiles tmpFiles])%list
       = expected_stages w args cfgSettings.
Proof.
  unfold expected_stages.
  phase_cases; eexists; split; reflexivity.
Qed.
Lemma transfer_stages_no_deletePaths :
  never is_deletePaths (trace (transfer_stages w args cfgSettings mntLoc))
  = true.
Proof. phase_cases; reflexivity. Qed.

Lemma transfer_stages_no_fatsort_step :
  never is_fatsort_step (trace (transfer_stages w args cfgSettings mntLoc))
  = true.
Proof. phase_cases; reflexivity. Qed.

Lemma transfer_stages_no_unmount :
  never is_unmount_or_fatsort
        (trace (transfer_stages w args cfgSettings mntLoc)) = true.
Proof. phase_cases; reflexivity. Qed.


Lemma transfer_stages_no_deleteFiles :
  never is_deleteFiles (trace (transfer_stages w args cfgSettings mntLoc))
  = true.
Proof. phase_cases; reflexivity. Qed.

Variable tmpFiles : list Path.

Lemma cleanup_outcome :
  outcome (cleanup args cfgSettings tmpFiles) = Returned tt.
Proof. phase_cases; reflexivity. Qed.

Lemma cleanup_stage :
  filter is_stage (trace (cleanup args cfgSettings tmpFiles))
  = [E_deleteFiles tmpFiles].
Proof. phase_cases; reflexivity. Qed.


(** The call of [deletePaths], when the condition of line 173 holds. *)
Lemma cleanup_deletePaths :
  filter is_deletePaths (trace (cleanup args cfgSettings tmpFiles)) =
  let d := getint cfgSettings "DeleteSources" in
  if truthy d && negb (non_interactive args && truthy (d - 1))
  then [E_deletePaths (sources args) (d - 1) (verbose args) (quiet args)]
  else [].
Proof. phase_cases; reflexivity. Qed.

Lemma cleanup_no_fatsort_step :
  never is_fatsort_step (trace (cleanup args cfgSettings tmpFiles)) = true.
Proof. phase_cases; reflexivity. Qed.

Lemma cleanup_no_unmount :
  never is_unmount_or_fatsort (trace (cleanup args cfgSettings tmpFiles))
  = true.
Proof. phase_cases; reflexivity. Qed.

Variable devLoc : Path.

Lemma unmount_and_fatsort_no_work :
  never is_transfer_work (trace (unmount_and_fatsort w args devLoc mntLoc))
  = true.
Proof. phase_cases; reflexivity. Qed.


Lemma unmount_and_fatsort_skipped :
  no_fatsort args = true ->
  never is_fatsort_step (trace (unmount_and_fatsort w args devLoc mntLoc))
  = true.
Proof. intros H. open_phase. rewrite H. reflexivity. Qed.

Lemma unmount_and_fatsort_outcome :
  outcome (unmount_and_fatsort w args devLoc mntLoc) =
  if no_fatsort args
     || (unmount w devLoc (verbose args) && fatsort w devLoc (verbose args))
  then Returned tt else Exited 1.
Proof. phase_cases; reflexivity. Qed.

(** A failing unmount or fatsort is followed by the abort and nothing
    else. *)
Lemma unmount_and_fatsort_abort_last :
  no_fatsort args
  || (unmount w devLoc (verbose args) && fatsort w devLoc (verbose args))
  = false ->
  last (trace (unmount_and_fatsort w args devLoc mntLoc))
       E_getRuntimeArguments = E_abort 1.
Proof. phase_cases; simpl; try discriminate; reflexivity. Qed.
End Phases.

(** ** The whole run *)

Lemma filter_bind {A B} p (m : Run A) (f : A -> Run B) :
  filter p (trace (bind m f)) =
  (filter p (trace m) ++ match outcome m with
                         | Returned a => filter p (trace (f a))
                         | Exited _ => []
                         end)%list.
Proof.
  rewrite trace_bind, filter_app. now destruct (outcome m).
Qed.

Lemma filter_call p e : filter p (trace (call e)) = if p e then [e] else [].
Proof. reflexivity. Qed.

(** What a predicate that ignores the noise selects from a run: its
    selection from the four phases, as far as the run gets. *)
Lemma filter_main p (w : World) :
  ignores_noise p ->
  let args := getRuntimeArguments w in
  filter p (trace (main w)) =
  match configured w with
  | None => []
  | Some cfgSettings =>
      filter p (trace (preflight w args cfgSettings)) ++
      match outcome (preflight w args cfgSettings) with
      | Exited _ => []
      | Returned (devLoc, mntLoc) =>
          filter p (trace (transfer_stages w args cfgSettings mntLoc)) ++
          match outcome (transfer_stages w args cfgSettings mntLoc) with
          | Exited _ => []
          | Returned tmpFiles =>
              filter p (trace (cleanup args cfgSettings tmpFiles)) ++
              match outcome (cleanup args cfgSettings tmpFiles) with
              | Exited _ => []
              | Returned _ =>
                  filter p (trace (unmount_and_fatsort w args devLoc mntLoc))
              end
          end
      end
  end%list.
Proof.
  intros Hp args. unfold ignores_noise in Hp.
  unfold main, configured. fold args.
  unfold talk.status, talk.success at 1 2.
  rewrite !filter_bind, !filter_call, !Hp by reflexivity.
  cbn [call outcome snd app].
  destruct (getConfigurationSettings _ _ _ _ _) as [cfgSettings |].
  - rewrite outcome_bind. cbn [call ret outcome snd].
    rewrite (filter_bind p (call _)), filter_call, Hp by reflexivity.
    cbn [call ret outcome snd trace fst filter app].
    rewrite filter_bind.
    destruct (outcome (preflight w args cfgSettings)) as [[d m] | st];
      [| reflexivity].
    rewrite filter_bind.
    destruct (outcome (transfer_stages w args cfgSettings m)) as [tmp | st];
      [| reflexivity].
    rewrite filter_bind.
    destruct (outcome (cleanup args cfgSettings tmp)) as [u | st];
      [| reflexivity].
    rewrite filter_bind. unfold talk.success.
    rewrite filter_call, Hp by reflexivity.
    destruct (outcome (unmount_and_fatsort w args d m));
      now rewrite app_nil_r.
  - simpl. now rewrite Hp.
Qed.

Lemma never_filter_nil p t : filter p t = [] -> never p t = true.
Proof.
  induction t as [| e t IH]; simpl; [reflexivity |].
  destruct (p e); simpl; [discriminate | exact IH].
Qed.

Lemma last_app_cons (t1 t2 : list Event) d :
  t2 <> [] -> last (t1 ++ t2) d = last t2 d.
Proof.
  intros H. induction t1 as [| e t1 IH]; [reflexivity |].
  simpl. rewrite IH. destruct (t1 ++ t2)%list eqn:E; [| reflexivity].
  apply app_eq_nil in E. tauto.
Qed.

(** Cutting a trace and selecting from it commute, when the cut point is
    among the selected events. *)
Lemma after_filter (p q : Event -> bool) t :
  (forall e, p e = true -> q e = true) ->
  filter q (after p t) = after p (filter q t).
Proof.
  intros Hpq. induction t as [| e t IH]; simpl; [reflexivity |].
  destruct (p e) eqn:Hp.
  - rewrite (Hpq e Hp). simpl. now rewrite Hp.
  - destruct (q e); simpl; [now rewrite Hp |]; exact IH.
Qed.

Lemma never_filter (p q : Event -> bool) t :
  (forall e, p e = true -> q e = true) ->
  never p (filter q t) = never p t.
Proof.
  intros Hpq. induction t as [| e t IH]; simpl; [reflexivity |].
  destruct (q e) eqn:Hq; simpl; rewrite IH; [reflexivity |].
  destruct (p e) eqn:Hp; [| reflexivity].
  rewrite (Hpq e Hp) in Hq. discriminate.
Qed.

Ltac bind_simpl :=
  repeat first
    [ rewrite outcome_bind
    | rewrite trace_bind
    | progress cbn [talk.status talk.success talk.error print call ret abort
                    outcome trace fst snd] ].

Section WholeRun.
Variable w : World.
Local Abbreviation args := (getRuntimeArguments w).

(** How the run ends. *)
Lemma outcome_main :
  outcome (main w) =
  match configured w with
  | None => Exited 1
  | Some cfgSettings =>
      if preflight_ok w args cfgSettings
      then if no_fatsort args
              || (unmount w (fst (device w)) (verbose args)
                  && fatsort w (fst (device w)) (verbose args))
           then Returned tt else Exited 1
      else Exited 1
  end.
Proof.
  unfold main, configured, device.
  destruct (getConfigurationSettings _ _ _ _ _) as [cfgSettings |];
    [| reflexivity].
  bind_simpl.
  rewrite preflight_outcome.
  destruct (preflight_ok w args cfgSettings); [| reflexivity].
  destruct (findDeviceLocations _ _ _ _ _) as [devLoc mntLoc].
  bind_simpl.
  destruct (transfer_stages_run w args cfgSettings mntLoc)
    as (tmpFiles & -> & _).
  bind_simpl.
  rewrite cleanup_outcome, unmount_and_fatsort_outcome.
  now destruct (no_fatsort args || _).
Qed.

(** A run that does not reach the transfer ends with the abort. *)
Lemma main_abort_last :
  reaches_transfer w = false ->
  last (trace (main w)) E_getRuntimeArguments = E_abort 1.
Proof.
  unfold reaches_transfer, main, configured.
  destruct (getConfigurationSettings _ _ _ _ _) as [cfgSettings |];
    [| reflexivity].
  intros Hko. bind_simpl.
  rewrite preflight_outcome, Hko, ?app_nil_r.
  pose proof (preflight_abort_last w args cfgSettings Hko) as Hlast.
  assert (Hne : trace (preflight w args cfgSettings) <> []).
  { intros E. rewrite E in Hlast. discriminate. }
  cbn [app]. change (?a :: ?b :: ?c :: ?d :: ?t)
    with ([a; b; c; d] ++ t)%list.
  now rewrite last_app_cons.
Qed.

(** The stages of a run: all five in the expected order, or none. *)
Lemma stages_main :
  filter is_stage (trace (main w)) =
  match configured w with
  | None => []
  | Some cfgSettings =>
      if preflight_ok w args cfgSettings
      then expected_stages w args cfgSettings
      else []
  end.
Proof.
  rewrite filter_main by (now intros []).
  destruct (configured w) as [cfgSettings |]; [| reflexivity].
  rewrite (filter_never is_stage (trace (preflight _ _ _))).
  2: { apply (never_weaken is_stage is_transfer_work);
       [now intros [] | apply preflight_no_work]. }
  rewrite preflight_outcome.
  destruct (preflight_ok w args cfgSettings); [| reflexivity].
  destruct (findDeviceLocations _ _ _ _ _) as [devLoc mntLoc].
  destruct (transfer_stages_run w args cfgSettings mntLoc)
    as (tmpFiles & -> & <-).
  rewrite cleanup_stage, cleanup_outcome.
  rewrite (filter_never is_stage (trace (unmount_and_fatsort _ _ _ _))).
  2: { apply (never_weaken is_stage is_transfer_work);
       [now intros [] | apply unmount_and_fatsort_no_work]. }
  now rewrite app_nil_r.
Qed.

(** The calls of [deletePaths] in a run: one, when the run reaches the
    cleanup and the condition of line 173 holds. *)
Lemma deletePaths_main :
  filter is_deletePaths (trace (main w)) =
  match configured w with
  | None => []
  | Some cfgSettings =>
      let d := getint cfgSettings "DeleteSources" in
      if preflight_ok w args cfgSettings
         && (truthy d && negb (non_interactive args && truthy (d - 1)))
      then [E_deletePaths (sources args) (d - 1) (verbose args)
                          (quiet args)]
      else []
  end.
Proof.
  rewrite filter_main by (now intros []).
  destruct (configured w) as [cfgSettings |]; [| reflexivity].
  rewrite (filter_never is_deletePaths (trace (preflight _ _ _))).
  2: { apply (never_weaken is_deletePaths is_transfer_work);
       [now intros [] | apply preflight_no_work]. }
  rewrite preflight_outcome.
  destruct (preflight_ok w args cfgSettings); [| reflexivity].
  destruct (findDeviceLocations _ _ _ _ _) as [devLoc mntLoc].
  rewrite (filter_never _ _ (transfer_stages_no_deletePaths _ _ _ _)).
  destruct (transfer_stages_run w args cfgSettings mntLoc)
    as (tmpFiles & -> & _).
  rewrite cleanup_deletePaths, cleanup_outcome.
  rewrite (filter_never is_deletePaths
                        (trace (unmount_and_fatsort _ _ _ _))).
  2: { apply (never_weaken is_deletePaths is_transfer_work);
       [now intros [] | apply unmount_and_fatsort_no_work]. }
  cbn [app andb]. now rewrite app_nil_r.
Qed.
End WholeRun.

Lemma existsb_filter (p q : Event -> bool) t :
  (forall e, p e = true -> q e = true) ->
  existsb p (filter q t) = existsb p t.
Proof.
  intros Hpq. induction t as [| e t IH]; simpl; [reflexivity |].
  destruct (q e) eqn:Hq; simpl; rewrite IH; [reflexivity |].
  destruct (p e) eqn:Hp; [| reflexivity].
  rewrite (Hpq e Hp) in Hq. discriminate.
Qed.

Lemma In_of_filter (p : Event -> bool) e t : In e (filter p t) -> In e t.
Proof. intros H. now apply filter_In in H. Qed.

Lemma reaches_transfer_configured (w : World) :
  reaches_transfer w = true ->
  exists cfgSettings,
    configured w = Some cfgSettings
    /\ preflight_ok w (getRuntimeArguments w) cfgSettings = true.
Proof.
  unfold reaches_transfer. destruct (configured w) as [c |]; [| discriminate].
  intros H. now exists c.
Qed.

Lemma deleteSourceSetting_configured (w : World) d :
  deleteSourceSetting w = Some d ->
  exists cfgSettings,
    configured w = Some cfgSettings /\ getint cfgSettings "DeleteSources" = d.
Proof.
  unfold deleteSourceSetting. destruct (configured w) as [c |]; simpl;
    [| discriminate].
  intros [= <-]. now exists c.
Qed.


(** ** The deletion policy (lines 167-181) *)

(** C1. When the [DeleteSources] setting is 0, a run never calls
    [deletePaths], in interactive and in non-interactive mode alike: no
    source path is deleted and no deletion prompt is requested. *)
Theorem C1_setting_0_never_deletes (w : World) :
  deleteSourceSetting w = Some 0 ->
  never is_deletePaths (trace (main w)) = true
  /\ never requests_prompt (trace (main w)) = true.
Proof.
  intros Hd.
  assert (H : never is_deletePaths (trace (main w)) = true).
  { apply never_filter_nil. rewrite deletePaths_main.
    destruct (deleteSourceSetting_configured w 0 Hd) as (c & -> & Hc).
    cbv zeta. rewrite Hc. cbn. now rewrite andb_false_r. }
  split; [exact H |].
  apply (never_weaken requests_prompt is_deletePaths); [now intros [] | exact H].
Qed.

Lemma C1_setting_0_never_deletes_witness :
  deleteSourceSetting (Sample.world 0 false false) = Some 0
  /\ never is_deletePaths (trace (main (Sample.world 0 false false))) = true.
Proof.
  split; [reflexivity |].
  apply (C1_setting_0_never_deletes (Sample.world 0 false false)).
  reflexivity.
Defined.

(** With the setting 2 and [--non-interactive], a run that reaches the
    cleanup does not call [deletePaths]: the setting 2 is not an
    unconditional deletion. *)
Lemma C2_setting_2_counterexample :
  deleteSourceSetting (Sample.world 2 true false) = Some 2
  /\ non_interactive (getRuntimeArguments (Sample.world 2 true false)) = true
  /\ reaches_transfer (Sample.world 2 true false) = true
  /\ existsb is_deletePaths (trace (main (Sample.world 2 true false))) = false.
Proof. repeat split. Qed.

(** C2, amended. The setting under which the sources are deleted
    unconditionally is 1: a run that reaches the cleanup then calls
    [deletePaths] exactly once, on all of [args.sources] and with the prompt
    flag 0, also in non-interactive mode. *)
Theorem C2_setting_1_always_deletes (w : World) :
  reaches_transfer w = true ->
  deleteSourceSetting w = Some 1 ->
  let args := getRuntimeArguments w in
  filter is_deletePaths (trace (main w))
  = [E_deletePaths (sources args) 0 (verbose args) (quiet args)].
Proof.
  intros Hr Hd args. rewrite deletePaths_main. fold args.
  destruct (deleteSourceSetting_configured w 1 Hd) as (c & Hcfg & Hc).
  destruct (reaches_transfer_configured w Hr) as (c' & Hcfg' & Hok).
  rewrite Hcfg in Hcfg'. injection Hcfg' as <-. fold args in Hok.
  rewrite Hcfg. cbv zeta. rewrite Hc, Hok. cbn.
  now rewrite andb_false_r.
Qed.

Lemma C2_setting_1_always_deletes_witness :
  reaches_transfer (Sample.world 1 true false) = true
  /\ deleteSourceSetting (Sample.world 1 true false) = Some 1
  /\ filter is_deletePaths (trace (main (Sample.world 1 true false)))
     = [E_deletePaths ["/tmp/a.mp3"; "/tmp/b.wav"] 0 false false].
Proof.
  split; [reflexivity |]. split; [reflexivity |].
  apply (C2_setting_1_always_deletes (Sample.world 1 true false));
    reflexivity.
Defined.

(** With the setting 1 and [--non-interactive], the sources are deleted,
    without a prompt. *)
Lemma C3_setting_1_counterexample :
  deleteSourceSetting (Sample.world 1 true false) = Some 1
  /\ non_interactive (getRuntimeArguments (Sample.world 1 true false)) = true
  /\ never is_deletePaths (trace (main (Sample.world 1 true false))) = false
  /\ In (E_deletePaths ["/tmp/a.mp3"; "/tmp/b.wav"] 0 false false)
        (trace (main (Sample.world 1 true false))).
Proof.
  split; [reflexivity |]. split; [reflexivity |]. split; [reflexivity |].
  apply (In_of_filter is_deletePaths). simpl. now left.
Qed.

(** C3, amended. The setting whose prompt flag is set is 2: with the setting
    2 and non-interactive mode, a run never calls [deletePaths], so no source
    path is deleted and no prompt is requested. *)
Theorem C3_setting_2_non_interactive_skips (w : World) :
  deleteSourceSetting w = Some 2 ->
  non_interactive (getRuntimeArguments w) = true ->
  never is_deletePaths (trace (main w)) = true
  /\ never requests_prompt (trace (main w)) = true.
Proof.
  intros Hd Hni.
  assert (H : never is_deletePaths (trace (main w)) = true).
  { apply never_filter_nil. rewrite deletePaths_main.
    destruct (deleteSourceSetting_configured w 2 Hd) as (c & -> & Hc).
    cbv zeta. rewrite Hc, Hni. cbn. now rewrite andb_false_r. }
  split; [exact H |].
  apply (never_weaken requests_prompt is_deletePaths); [now intros [] | exact H].
Qed.

Lemma C3_setting_2_non_interactive_skips_witness :
  deleteSourceSetting (Sample.world 2 true true) = Some 2
  /\ non_interactive (getRuntimeArguments (Sample.world 2 true true)) = true
  /\ never is_deletePaths (trace (main (Sample.world 2 true true))) = true.
Proof.
  split; [reflexivity |]. split; [reflexivity |].
  apply (C3_setting_2_non_interactive_skips (Sample.world 2 true true));
    reflexivity.
Defined.

(** With the setting 1 in an interactive run, [deletePaths] is called with
    the prompt flag 0: no prompt is requested. *)
Lemma C4_setting_1_counterexample :
  deleteSourceSetting (Sample.world 1 false false) = Some 1
  /\ non_interactive (getRuntimeArguments (Sample.world 1 false false))
     = false
  /\ filter is_deletePaths (trace (main (Sample.world 1 false false)))
     = [E_deletePaths ["/tmp/a.mp3"; "/tmp/b.wav"] 0 false false]
  /\ existsb requests_prompt (trace (main (Sample.world 1 false false)))
     = false.
Proof. repeat split. Qed.

(** C4, amended. In a run that reaches the cleanup, [deletePaths] is called
    with the prompt flag [DeleteSources - 1]: with the setting 2 in an
    interactive run the flag is 1 and requests a prompt, with the setting 1
    the flag is 0 and requests none. *)
Theorem C4_prompt_flag (w : World) :
  reaches_transfer w = true ->
  let args := getRuntimeArguments w in
  let t := trace (main w) in
  (deleteSourceSetting w = Some 2 -> non_interactive args = false ->
   filter is_deletePaths t
   = [E_deletePaths (sources args) 1 (verbose args) (quiet args)]
   /\ existsb requests_prompt t = true)
  /\ (deleteSourceSetting w = Some 1 ->
      filter is_deletePaths t
      = [E_deletePaths (sources args) 0 (verbose args) (quiet args)]
      /\ existsb requests_prompt t = false).
Proof.
  intros Hr args t.
  destruct (reaches_transfer_configured w Hr) as (c & Hcfg & Hok).
  fold args in Hok.
  assert (Hdel : forall d,
    deleteSourceSetting w = Some d ->
    filter is_deletePaths t =
    if truthy d && negb (non_interactive args && truthy (d - 1))
    then [E_deletePaths (sources args) (d - 1) (verbose args) (quiet args)]
    else []).
  { intros d Hd. unfold t. rewrite deletePaths_main. fold args.
    destruct (deleteSourceSetting_configured w d Hd) as (c' & Hcfg' & Hc).
    rewrite Hcfg in Hcfg'. injection Hcfg' as <-.
    rewrite Hcfg. cbv zeta. now rewrite Hc, Hok. }
  assert (Hex : existsb requests_prompt t
                = existsb requests_prompt (filter is_deletePaths t)).
  { symmetry. apply existsb_filter. now intros []. }
  split.
  - intros Hd Hni. rewrite Hex, (Hdel 2 Hd), Hni. now split.
  - intros Hd. rewrite Hex, (Hdel 1 Hd). cbn. rewrite andb_false_r.
    now split.
Qed.

Lemma C4_prompt_flag_witness :
  reaches_transfer (Sample.world 2 false false) = true
  /\ deleteSourceSetting (Sample.world 2 false false) = Some 2
  /\ non_interactive (getRuntimeArguments (Sample.world 2 false false))
     = false
  /\ filter is_deletePaths (trace (main (Sample.world 2 false false)))
     = [E_deletePaths ["/tmp/a.mp3"; "/tmp/b.wav"] 1 false false].
Proof.
  split; [reflexivity |]. split; [reflexivity |]. split; [reflexivity |].
  apply (proj1 (C4_prompt_flag (Sample.world 2 false false) eq_refl));
    reflexivity.
Defined.

(** ** The transfer stages (lines 117-165) *)

(** C5. In a run that gets through the copy stage, the list of temp files
    that [convertAudioFiles] returned is passed to [deleteFiles] after
    [copyFiles], and this is the only call of [deleteFiles]. *)
Theorem C5_temp_files_deleted_after_copy (w : World)
        fromFiles toFiles cfgSettings ni verb quiet_ :
  existsb is_copyFiles (trace (main w)) = true ->
  In (E_convertAudioFiles fromFiles toFiles cfgSettings ni verb quiet_)
     (trace (main w)) ->
  let tmpFiles :=
    snd (convertAudioFiles w fromFiles toFiles cfgSettings ni verb quiet_) in
  In (E_deleteFiles tmpFiles) (after is_copyFiles (trace (main w)))
  /\ filter is_deleteFiles (trace (main w)) = [E_deleteFiles tmpFiles].
Proof.
  intros Hcopy Hconv tmpFiles.
  assert (Hst := stages_main w).
  rewrite <- (existsb_filter is_copyFiles is_stage) in Hcopy
    by (now intros []).
  assert (Hconv' : In (E_convertAudioFiles fromFiles toFiles cfgSettings
                                           ni verb quiet_)
                      (filter is_stage (trace (main w)))).
  { apply filter_In. now split. }
  assert (Hafter : filter is_stage (after is_copyFiles (trace (main w)))
                   = after is_copyFiles (filter is_stage (trace (main w)))).
  { apply after_filter. now intros []. }
  assert (Hdel : filter is_deleteFiles (trace (main w))
                 = filter is_deleteFiles (filter is_stage (trace (main w)))).
  { clear. induction (trace (main w)) as [| e t IH]; [reflexivity |].
    simpl. destruct e; simpl; now rewrite ?IH. }
  rewrite Hst in Hcopy, Hconv', Hafter. rewrite Hdel, Hst. clear Hst Hdel.
  destruct (configured w) as [c |]; [| discriminate].
  destruct (preflight_ok w (getRuntimeArguments w) c); [| discriminate].
  unfold expected_stages in *.
  destruct (getCorrespondingPathsLists _ _ _ _ _) as [[[x f0] dirs] t0].
  destruct (filterOutExtensions w f0 t0 _ _) as [f1 t1].
  destruct (convertAudioFiles w f1 t1 _ _ _ _) as [[f2 t2] tmp] eqn:Econv.
  simpl in Hconv'.
  destruct Hconv' as [H | [H | [H | [H | [H | []]]]]]; try discriminate.
  injection H as <- <- <- <- <- <-.
  unfold tmpFiles. rewrite Econv. cbn [snd]. split.
  - apply (In_of_filter is_stage). rewrite Hafter. simpl. now left.
  - reflexivity.
Qed.

Lemma C5_temp_files_deleted_after_copy_witness :
  In (E_deleteFiles ["/tmp/b.mp3"])
     (after is_copyFiles (trace (main (Sample.world 0 true false))))
  /\ filter is_deleteFiles (trace (main (Sample.world 0 true false)))
     = [E_deleteFiles ["/tmp/b.mp3"]].
Proof.
  apply (C5_temp_files_deleted_after_copy
           (Sample.world 0 true false)
           ["/tmp/a.mp3"; "/tmp/b.wav"] ["/mnt/dev/a.mp3"; "/mnt/dev/b.wav"]
           {| getint := fun _ => 0 |} true false false).
  - reflexivity.
  - apply (In_of_filter is_stage). simpl. right. now left.
Defined.

(** C6. The five stages run in the order filter, convert, create
    directories, copy, temp-file cleanup, each on the lists that the stage
    before returned: a run that reaches the transfer calls exactly
    [expected_stages], and a run that does not calls none of them. *)
Theorem C6_stages_in_order (w : World) :
  let args := getRuntimeArguments w in
  if reaches_transfer w
  then exists cfgSettings,
         configured w = Some cfgSettings
         /\ filter is_stage (trace (main w))
            = expected_stages w args cfgSettings
  else filter is_stage (trace (main w)) = [].
Proof.
  intros args. rewrite stages_main. unfold reaches_transfer. fold args.
  destruct (configured w) as [c |]; [| reflexivity].
  destruct (preflight_ok w args c); [| reflexivity].
  now exists c.
Qed.

(** ** Fatal errors (lines 44-52 and 92-99) *)

Lemma no_work_unless_reached (w : World) :
  reaches_transfer w = false ->
  never is_transfer_work (trace (main w)) = true.
Proof.
  intros Hko. apply never_filter_nil.
  rewrite filter_main by (now intros []).
  unfold reaches_transfer in Hko.
  destruct (configured w) as [c |]; [| reflexivity].
  rewrite (filter_never _ _ (preflight_no_work _ _ _)).
  now rewrite preflight_outcome, Hko.
Qed.

(** C8. When the configuration cannot be read, or no FAT device is found for
    the destination, the run ends with the abort and the exit status 1, and
    has computed no plan and filtered, converted, copied or deleted
    nothing. *)
Theorem C8_fatal_errors_stop_before_transfer (w : World) :
  configured w = None \/ fst (device w) = "" ->
  exit_status (main w) = 1
  /\ last (trace (main w)) E_getRuntimeArguments = E_abort 1
  /\ never is_transfer_work (trace (main w)) = true.
Proof.
  intros H.
  assert (Hko : reaches_transfer w = false).
  { unfold reaches_transfer, preflight_ok. fold (device w).
    destruct H as [-> | ->]; [reflexivity |].
    destruct (configured w); [| reflexivity].
    cbn. apply andb_false_r. }
  split; [| split].
  - unfold exit_status. rewrite outcome_main.
    unfold reaches_transfer in Hko.
    destruct (configured w); [| reflexivity]. now rewrite Hko.
  - now apply main_abort_last.
  - now apply no_work_unless_reached.
Qed.

Lemma C8_fatal_errors_stop_before_transfer_witness :
  configured Sample.no_config = None
  /\ exit_status (main Sample.no_config) = 1
  /\ never is_transfer_work (trace (main Sample.no_config)) = true.
Proof.
  split; [reflexivity |].
  destruct (C8_fatal_errors_stop_before_transfer Sample.no_config
              (or_introl eq_refl)) as (H1 & _ & H3).
  now split.
Defined.

(** ** Runs without fatsort (lines 54-84 and 183-201) *)

Lemma fatsort_steps_main (w : World) :
  no_fatsort (getRuntimeArguments w) = true ->
  never is_fatsort_step (trace (main w)) = true.
Proof.
  intros Hnofs. apply never_filter_nil.
  rewrite filter_main by (now intros []).
  destruct (configured w) as [c |]; [| reflexivity].
  rewrite (filter_never _ _ (preflight_no_fatsort_step _ _ _ Hnofs)).
  destruct (outcome (preflight _ _ _)) as [[devLoc mntLoc] |];
    [| reflexivity].
  rewrite (filter_never _ _ (transfer_stages_no_fatsort_step _ _ _ _)).
  destruct (outcome (transfer_stages _ _ _ _)) as [tmpFiles |];
    [| reflexivity].
  rewrite (filter_never _ _ (cleanup_no_fatsort_step _ _ _)).
  destruct (outcome (cleanup _ _ _)); [| reflexivity].
  now rewrite (filter_never _ _ (unmount_and_fatsort_skipped _ _ _ _ Hnofs)).
Qed.

(** The transfer work of a run that reaches the transfer does not depend on
    the [no_fatsort] flag. *)
Lemma transfer_work_main (w : World) cfgSettings :
  configured w = Some cfgSettings ->
  preflight_ok w (getRuntimeArguments w) cfgSettings = true ->
  forall b,
    filter is_transfer_work (trace (main w)) =
    let args := getRuntimeArguments (with_no_fatsort b w) in
    let mntLoc := snd (device w) in
    (filter is_transfer_work
            (trace (transfer_stages (with_no_fatsort b w) args cfgSettings
                                    mntLoc)) ++
     match outcome (transfer_stages (with_no_fatsort b w) args cfgSettings
                                    mntLoc) with
     | Returned tmpFiles =>
         filter is_transfer_work (trace (cleanup args cfgSettings tmpFiles))
     | Exited _ => []
     end)%list.
Proof.
  intros Hcfg Hok b. rewrite filter_main by (now intros []).
  rewrite Hcfg, (filter_never _ _ (preflight_no_work _ _ _)).
  rewrite preflight_outcome, Hok. unfold device.
  destruct (findDeviceLocations _ _ _ _ _) as [devLoc mntLoc].
  cbn [snd app]. cbv zeta.
  change (transfer_stages (with_no_fatsort b w)
            (getRuntimeArguments (with_no_fatsort b w)) cfgSettings mntLoc)
    with (transfer_stages w (getRuntimeArguments w) cfgSettings mntLoc).
  f_equal.
  destruct (outcome (transfer_stages _ _ _ _)) as [tmpFiles |];
    [| reflexivity].
  change (cleanup (getRuntimeArguments (with_no_fatsort b w)))
    with (cleanup (getRuntimeArguments w)) at 1.
  rewrite cleanup_outcome.
  rewrite (filter_never _ _ (unmount_and_fatsort_no_work _ _ _ _)).
  apply app_nil_r.
Qed.

Lemma transfer_stages_plan (w : World) args cfgSettings mntLoc :
  filter is_getCorrespondingPathsLists
         (trace (transfer_stages w args cfgSettings mntLoc))
  = [E_getCorrespondingPathsLists (sources args) (destination args)
                                  (verbose args) (quiet args)].
Proof. phase_cases; reflexivity. Qed.

Lemma cleanup_no_plan args cfgSettings tmpFiles :
  never is_getCorrespondingPathsLists
        (trace (cleanup args cfgSettings tmpFiles)) = true.
Proof. phase_cases; reflexivity. Qed.

(** The plan computation of a run that reaches the transfer. *)
Lemma plan_main (w : World) cfgSettings :
  configured w = Some cfgSettings ->
  preflight_ok w (getRuntimeArguments w) cfgSettings = true ->
  let args := getRuntimeArguments w in
  filter is_getCorrespondingPathsLists (trace (main w))
  = [E_getCorrespondingPathsLists (sources args) (destination args)
                                  (verbose args) (quiet args)].
Proof.
  intros Hcfg Hok args. fold args in Hok.
  rewrite filter_main by (now intros []). fold args. rewrite Hcfg.
  rewrite (filter_never is_getCorrespondingPathsLists
                        (trace (preflight _ _ _))).
  2: { apply (never_weaken _ is_transfer_work);
       [now intros [] | apply preflight_no_work]. }
  rewrite preflight_outcome, Hok.
  destruct (findDeviceLocations _ _ _ _ _) as [devLoc mntLoc].
  rewrite transfer_stages_plan.
  destruct (transfer_stages_run w args cfgSettings mntLoc)
    as (tmpFiles & -> & _).
  rewrite cleanup_outcome.
  rewrite (filter_never _ _ (cleanup_no_plan _ _ _)).
  rewrite (filter_never is_getCorrespondingPathsLists
                        (trace (unmount_and_fatsort _ _ _ _))).
  2: { apply (never_weaken _ is_transfer_work);
       [now intros [] | apply unmount_and_fatsort_no_work]. }
  reflexivity.
Qed.

(** C9. With [--no-fatsort], a run never requests root access, never checks
    for fatsort and never unmounts or fatsorts.  Whether it reaches the
    transfer depends on the configuration and the device only, not on root
    access or on fatsort; when the configuration is read and a device is
    found, it computes the plan and runs the five stages, filter, convert,
    create directories, copy and temp-file cleanup, in this order and each
    on the lists of the stage before.  Its transfer work (plan, stages,
    renaming, deletions) is call for call that of the fatsorting run in the
    same world, when that one gets to the transfer. *)
Theorem C9_no_fatsort_skips_fatsort_steps (w : World) :
  let args := getRuntimeArguments w in
  let t := trace (main w) in
  no_fatsort args = true ->
  never is_fatsort_step t = true
  /\ reaches_transfer w
     = match configured w with
       | None => false
       | Some _ => negb (fst (device w) =? "")%string
       end
  /\ (forall cfgSettings,
         configured w = Some cfgSettings ->
         fst (device w) <> "" ->
         filter is_getCorrespondingPathsLists t
         = [E_getCorrespondingPathsLists (sources args) (destination args)
                                         (verbose args) (quiet args)]
         /\ filter is_stage t = expected_stages w args cfgSettings)
  /\ (reaches_transfer (with_no_fatsort false w) = true ->
      reaches_transfer w = true
      /\ filter is_transfer_work t
         = filter is_transfer_work (trace (main (with_no_fatsort false w)))).
Proof.
  intros args t Hnofs. subst t.
  assert (Hpre : forall c,
            preflight_ok w args c = negb (fst (device w) =? "")%string).
  { intros c. unfold preflight_ok, device. fold args. now rewrite Hnofs. }
  split; [now apply fatsort_steps_main |]. split; [| split].
  - unfold reaches_transfer. fold args.
    destruct (configured w) as [c |]; [apply Hpre | reflexivity].
  - intros c Hcfg Hdev.
    assert (Hok : preflight_ok w args c = true).
    { rewrite Hpre. apply negb_true_iff. now apply String.eqb_neq. }
    split.
    + exact (plan_main w c Hcfg Hok).
    + rewrite stages_main, Hcfg. fold args. now rewrite Hok.
  - intros Hr.
    destruct (reaches_transfer_configured _ Hr) as (c & Hcfg & Hok).
    change (configured (with_no_fatsort false w)) with (configured w) in Hcfg.
    assert (Hok' : preflight_ok w args c = true).
    { unfold preflight_ok in *. fold args. rewrite Hnofs. cbn [orb].
      apply andb_true_iff in Hok. destruct Hok as [_ Hdev]. exact Hdev. }
    split.
    + unfold reaches_transfer. fold args. now rewrite Hcfg.
    + rewrite (transfer_work_main w c Hcfg Hok' false).
      rewrite (transfer_work_main (with_no_fatsort false w) c Hcfg Hok false).
      reflexivity.
Qed.

(** In [no_fatsort_world]: none of the fatsort steps, all of the stages. *)
Lemma C9_no_fatsort_skips_fatsort_steps_witness :
  no_fatsort (getRuntimeArguments no_fatsort_world) = true
  /\ never is_fatsort_step (trace (main no_fatsort_world)) = true
  /\ reaches_transfer no_fatsort_world = true
  /\ filter is_stage (trace (main no_fatsort_world))
     = [E_filterOutExtensions ["/tmp/a.mp3"; "/tmp/b.wav"]
                              ["/mnt/dev/a.mp3"; "/mnt/dev/b.wav"]
                              {| getint := fun _ => 1 |} false;
        E_convertAudioFiles ["/tmp/a.mp3"; "/tmp/b.wav"]
                            ["/mnt/dev/a.mp3"; "/mnt/dev/b.wav"]
                            {| getint := fun _ => 1 |} false false false;
        E_createDirectories ["/mnt/dev"] false false false;
        E_copyFiles ["/tmp/a.mp3"; "/tmp/b.wav"]
                    ["/mnt/dev/a.mp3"; "/mnt/dev/b.wav"]
                    {| getint := fun _ => 1 |} false false false;
        E_deleteFiles ["/tmp/b.mp3"]].
Proof.
  destruct (C9_no_fatsort_skips_fatsort_steps no_fatsort_world eq_refl)
    as (Hnever & Hreach & Hrun & _).
  split; [reflexivity |]. split; [exact Hnever |].
  split; [exact Hreach |].
  refine (proj2 (Hrun {| getint := fun _ => 1 |} eq_refl _)).
  discriminate.
Defined.

(** ** Deletions come before the unmount (lines 160-201) *)





(** ** The plan invariant *)

Module transfer_facts.
Import transfer.

Example scenario_A :
  computeTransferPlan scenario_fs scenario_sources "/mnt/dev"
  = Some {| fromFiles := ["/tmp/a.mp3"; "/tmp/b.wav"];
            toDirs := ["/mnt/dev"];
            toFiles := ["/mnt/dev/a.mp3"; "/mnt/dev/b.wav"] |}.
Proof. reflexivity. Qed.

Example scenario_directory :
  computeTransferPlan scenario_fs ["/tmp/album"] "/mnt/dev"
  = Some {| fromFiles := ["/tmp/album/01.flac"; "/tmp/album/live/02.flac"];
            toDirs := ["/mnt/dev/album"; "/mnt/dev/album/live"];
            toFiles := ["/mnt/dev/album/01.flac";
                        "/mnt/dev/album/live/02.flac"] |}.
Proof. reflexivity. Qed.

Example scenario_missing_source :
  computeTransferPlan scenario_fs ["/tmp/none"] "/mnt/dev" = None.
Proof. reflexivity. Qed.

Example scenario_B :
  option_map
    (fun plan => filterExtensions plan exclude_wav false (fun _ => false))
    (computeTransferPlan scenario_fs scenario_sources "/mnt/dev")
  = Some {| fromFiles := ["/tmp/a.mp3"];
            toDirs := ["/mnt/dev"];
            toFiles := ["/mnt/dev/a.mp3"] |}.
Proof. reflexivity. Qed.

Example scenario_C :
  convertAudio {| fromFiles := ["/tmp/b.wav"]; toDirs := ["/mnt/dev"];
                  toFiles := ["/mnt/dev/b.wav"] |}
               wav_to_mp3 false scenario_converter false
  = Some ({| fromFiles := ["/tmp/b.wav"]; toDirs := ["/mnt/dev"];
             toFiles := ["/tmp/transfat/b.wav.mp3"] |},
          ["/tmp/transfat/b.wav.mp3"]).
Proof. reflexivity. Qed.

Lemma mapSources_in_step fs destinationRoot srcs plan :
  mapSources fs destinationRoot srcs = Some plan -> in_step plan.
Proof.
  unfold in_step. revert plan.
  induction srcs as [| source srcs IH]; simpl; intros plan.
  - now intros [= <-].
  - destruct (fs source) as [[| entries] |]; try discriminate;
      destruct (mapSources fs destinationRoot srcs) as [plan' |];
      try discriminate; intros [= <-]; simpl.
    + f_equal. now apply IH.
    + rewrite !length_app, !length_map. f_equal. now apply IH.
Qed.

Lemma computeTransferPlan_in_step fs srcs destinationRoot plan :
  computeTransferPlan fs srcs destinationRoot = Some plan -> in_step plan.
Proof.
  unfold computeTransferPlan.
  destruct (fs destinationRoot) as [[| entries] |]; try discriminate.
  destruct (mapSources fs destinationRoot srcs) as [plan' |] eqn:E;
    [| discriminate].
  intros [= <-]. unfold in_step. simpl.
  exact (mapSources_in_step _ _ _ _ E).
Qed.

Lemma filterLists_length excludedExts interactive skips froms :
  forall tos,
    length froms = length tos ->
    length (fst (filterLists excludedExts interactive skips froms tos))
    = length (snd (filterLists excludedExts interactive skips froms tos)).
Proof.
  induction froms as [| f froms IH]; intros [| t tos] Hlen;
    try discriminate; [reflexivity |].
  simpl in Hlen. injection Hlen as Hlen. specialize (IH tos Hlen).
  simpl.
  destruct (filterLists excludedExts interactive skips froms tos)
    as [froms' tos'].
  destruct (removes excludedExts interactive skips t); simpl in *; lia.
Qed.

Lemma filterExtensions_in_step plan excludedExts interactive skips :
  in_step plan ->
  in_step (filterExtensions plan excludedExts interactive skips).
Proof.
  unfold in_step, filterExtensions. intros Hlen.
  pose proof (filterLists_length excludedExts interactive skips
                                 _ _ Hlen) as H.
  now destruct (filterLists _ _ _ _ _).
Qed.

Lemma convertLists_length rules converter abortOnFailure froms :
  forall tos tos' temps,
    convertLists rules converter abortOnFailure froms tos
    = Some (tos', temps) ->
    length tos' = length tos.
Proof.
  induction froms as [| f froms IH]; intros [| t tos] tos' temps; simpl;
    try (now intros [= <- <-]).
  destruct (convertLists rules converter abortOnFailure froms tos)
    as [[tos'' temps''] |] eqn:E; [| discriminate].
  specialize (IH _ _ _ E).
  destruct (ruleFor rules f t) as [rule |].
  - destruct (converter f (targetExt rule)) as [temp |].
    + intros [= <- <-]. simpl. now f_equal.
    + destruct abortOnFailure; [discriminate |].
      intros [= <- <-]. simpl. now f_equal.
  - intros [= <- <-]. simpl. now f_equal.
Qed.

Lemma convertAudio_in_step plan rules interactive converter abortOnFailure
      plan' temps :
  in_step plan ->
  convertAudio plan rules interactive converter abortOnFailure
  = Some (plan', temps) ->
  in_step plan'.
Proof.
  unfold in_step, convertAudio. intros Hlen.
  destruct (convertLists _ _ _ _ _) as [[tos temps'] |] eqn:E;
    [| discriminate].
  intros [= <- <-]. simpl.
  rewrite (convertLists_length _ _ _ _ _ _ _ E). exact Hlen.
Qed.

(** C7. For valid sources and destination root the plan that PathMapper
    computes has as many [fromFiles] as [toFiles]; the extension filter
    and the audio conversion keep the two lists in step. *)
Theorem C7_fromFiles_toFiles_in_step
        fs srcs destinationRoot plan :
  computeTransferPlan fs srcs destinationRoot = Some plan ->
  in_step plan
  /\ (forall excludedExts interactive skips,
        let filtered :=
          filterExtensions plan excludedExts interactive skips in
        in_step filtered
        /\ forall rules converter abortOnFailure converted temps,
             convertAudio filtered rules interactive converter
                          abortOnFailure = Some (converted, temps) ->
             in_step converted).
Proof.
  intros Hplan.
  pose proof (computeTransferPlan_in_step _ _ _ _ Hplan) as H0.
  split; [exact H0 |].
  intros excludedExts interactive skips filtered.
  assert (H1 : in_step filtered) by now apply filterExtensions_in_step.
  split; [exact H1 |].
  intros rules converter abortOnFailure converted temps Hconv.
  exact (convertAudio_in_step _ _ _ _ _ _ _ H1 Hconv).
Qed.

Lemma C7_fromFiles_toFiles_in_step_witness :
  computeTransferPlan scenario_fs ["/tmp/album"; "/tmp/b.wav"] "/mnt/dev"
  = Some {| fromFiles := ["/tmp/album/01.flac"; "/tmp/album/live/02.flac";
                          "/tmp/b.wav"];
            toDirs := ["/mnt/dev/album"; "/mnt/dev/album/live"; "/mnt/dev"];
            toFiles := ["/mnt/dev/album/01.flac";
                        "/mnt/dev/album/live/02.flac"; "/mnt/dev/b.wav"] |}
  /\ in_step {| fromFiles := ["/tmp/album/01.flac";
                              "/tmp/album/live/02.flac"; "/tmp/b.wav"];
                toDirs := ["/mnt/dev/album"; "/mnt/dev/album/live";
                           "/mnt/dev"];
                toFiles := ["/mnt/dev/album/01.flac";
                            "/mnt/dev/album/live/02.flac";
                            "/mnt/dev/b.wav"] |}.
Proof.
  split; [reflexivity |].
  apply (C7_fromFiles_toFiles_in_step
           scenario_fs ["/tmp/album"; "/tmp/b.wav"] "/mnt/dev").
  reflexivity.
Defined.
End transfer_facts.

(** ** Reaching the transfer *)

(** [reaches_transfer] holds of the runs that call [copyFiles], and of
    those that call [deleteFiles]. *)
Lemma reaches_transfer_copies (w : World) :
  reaches_transfer w = existsb is_copyFiles (trace (main w))
  /\ reaches_transfer w = existsb is_deleteFiles (trace (main w)).
Proof.
  rewrite <- (existsb_filter is_copyFiles is_stage) by (now intros []).
  rewrite <- (existsb_filter is_deleteFiles is_stage) by (now intros []).
  rewrite stages_main. unfold reaches_transfer, expected_stages.
  destruct (configured w) as [c |]; [| now split].
  destruct (preflight_ok w (getRuntimeArguments w) c); [| now split].
  destruct (getCorrespondingPathsLists _ _ _ _ _) as [[[x f0] dirs] t0].
  destruct (filterOutExtensions w f0 t0 _ _) as [f1 t1].
  destruct (convertAudioFiles w f1 t1 _ _ _ _) as [[f2 t2] tmp].
  now split.
Qed.

(** ** The lists that [main] threads through the stages *)

(** [main] passes to the filter the lists of the plan, to the conversion the
    lists as the filter left them, and to the copy the lists as the
    conversion left them: when the collaborators keep the two lists in step,
    every stage receives them in step. *)
Lemma main_lists_in_step (w : World) :
  keeps_in_step w ->
  forall e, In e (trace (main w)) -> lists_in_step e.
Proof.
  intros (Hplan & Hfilter & Hconv) e He.
  destruct (is_stage e) eqn:Hstage; [| now destruct e].
  assert (Hin : In e (filter is_stage (trace (main w)))).
  { apply filter_In. now split. }
  rewrite stages_main in Hin.
  destruct (configured w) as [c |]; [| contradiction].
  destruct (preflight_ok w (getRuntimeArguments w) c); [| contradiction].
  unfold expected_stages in Hin.
  destruct (getCorrespondingPathsLists _ _ _ _ _)
    as [[[x f0] dirs] t0] eqn:E0.
  specialize (Hplan _ _ _ _ _ _ _ _ E0).
  specialize (Hfilter f0 t0 c (non_interactive (getRuntimeArguments w)) Hplan).
  destruct (filterOutExtensions w f0 t0 _ _) as [f1 t1]. cbn [fst snd] in *.
  specialize (Hconv f1 t1 c (non_interactive (getRuntimeArguments w))
                    (verbose (getRuntimeArguments w))
                    (quiet (getRuntimeArguments w)) Hfilter).
  destruct (convertAudioFiles w f1 t1 _ _ _ _) as [[f2 t2] tmp].
  cbn [fst snd] in *.
  destruct Hin as [<- | [<- | [<- | [<- | [<- | []]]]]]; simpl; auto.
Qed.

(** ** The trace of a run, phase by phase *)

Lemma trace_main (w : World) :
  let args := getRuntimeArguments w in
  trace (main w) =
  ([E_getRuntimeArguments;
    E_talk_status ("Reading config file '" ++ config_file args ++ "'")
                  (verbose args);
    E_getConfigurationSettings (config_file args) (default args)
                               (armin args) (quiet args)] ++
   match configured w with
   | None => [E_abort 1]
   | Some cfgSettings =>
       E_talk_success ("'" ++ config_file args ++ "' read") (verbose args)
       :: trace (preflight w args cfgSettings) ++
          if preflight_ok w args cfgSettings
          then
            trace (transfer_stages w args cfgSettings (snd (device w))) ++
            trace (cleanup args cfgSettings
                     (returned [] (transfer_stages w args cfgSettings
                                                   (snd (device w))))) ++
            trace (unmount_and_fatsort w args (fst (device w))
                                       (snd (device w))) ++
            if no_fatsort args
               || (unmount w (fst (device w)) (verbose args)
                   && fatsort w (fst (device w)) (verbose args))
            then [E_talk_success "All done" (verbose args)]
            else []
          else []
   end)%list.
Proof.
  intros args. unfold main, configured, device, returned. fold args.
  destruct (getConfigurationSettings _ _ _ _ _) as [c |]; [| reflexivity].
  bind_simpl. rewrite preflight_outcome.
  destruct (preflight_ok w args c); [| now rewrite !app_nil_r].
  destruct (findDeviceLocations _ _ _ _ _) as [devLoc mntLoc].
  bind_simpl.
  destruct (transfer_stages_run w args c mntLoc) as (tmpFiles & Hts & _).
  rewrite Hts. bind_simpl.
  rewrite cleanup_outcome, unmount_and_fatsort_outcome.
  destruct (no_fatsort args || _); cbn [app]; rewrite ?app_nil_r;
    reflexivity.
Qed.

Section MorePhases.
Variable w : World.
Variables (args : Args) (cfgSettings : Settings).
Variables (devLoc mntLoc : Path) (tmpFiles : list Path).

Lemma preflight_aborts :
  existsb is_abort (trace (preflight w args cfgSettings))
  = negb (preflight_ok w args cfgSettings)
  /\ after is_abort (trace (preflight w args cfgSettings)) = [].
Proof. unfold preflight_ok. phase_cases; simpl; now split. Qed.

Lemma transfer_stages_no_abort :
  never is_abort (trace (transfer_stages w args cfgSettings mntLoc)) = true.
Proof. phase_cases; reflexivity. Qed.

Lemma cleanup_no_abort :
  never is_abort (trace (cleanup args cfgSettings tmpFiles)) = true.
Proof. phase_cases; reflexivity. Qed.

Lemma unmount_and_fatsort_aborts :
  existsb is_abort (trace (unmount_and_fatsort w args devLoc mntLoc))
  = negb (no_fatsort args
          || (unmount w devLoc (verbose args)
              && fatsort w devLoc (verbose args)))
  /\ after is_abort (trace (unmount_and_fatsort w args devLoc mntLoc)) = [].
Proof. phase_cases; simpl; now split. Qed.

(** The ranks of the calls of each phase. *)
Lemma preflight_ranks :
  let ranks := map rank (calls (trace (preflight w args cfgSettings))) in
  ascending ranks = true
  /\ within 2 (if preflight_ok w args cfgSettings then 4 else 15) ranks
     = true.
Proof. unfold preflight_ok. phase_cases; simpl; now split. Qed.

Lemma transfer_stages_ranks :
  let ranks :=
    map rank (calls (trace (transfer_stages w args cfgSettings mntLoc))) in
  ascending ranks = true /\ within 5 10 ranks = true.
Proof. phase_cases; simpl; now split. Qed.

Lemma cleanup_ranks :
  let ranks := map rank (calls (trace (cleanup args cfgSettings tmpFiles))) in
  ascending ranks = true /\ within 11 12 ranks = true.
Proof. phase_cases; simpl; now split. Qed.

Lemma unmount_and_fatsort_ranks :
  let ranks :=
    map rank (calls (trace (unmount_and_fatsort w args devLoc mntLoc))) in
  ascending ranks = true /\ within 13 15 ranks = true.
Proof. phase_cases; simpl; now split. Qed.

(** The unmount and fatsort calls: the fatsort only after an unmount that
    succeeded, both on the device. *)
Lemma unmount_and_fatsort_calls :
  filter is_unmount_or_fatsort
         (trace (unmount_and_fatsort w args devLoc mntLoc)) =
  if no_fatsort args then []
  else E_unmount devLoc (verbose args)
       :: if unmount w devLoc (verbose args)
          then [E_fatsort devLoc (verbose args)] else [].
Proof. phase_cases; reflexivity. Qed.

(** The calls of [preflight]: the checks stop at the first that fails. *)
Lemma preflight_calls :
  calls (trace (preflight w args cfgSettings)) =
  let find :=
    let '(dev, _) := findDeviceLocations w (destination args)
                       (non_interactive args) (verbose args) (quiet args) in
    E_findDeviceLocations (destination args) (non_interactive args)
                          (verbose args) (quiet args)
    :: if (dev =? "")%string then [E_abort 1] else [] in
  if no_fatsort args then find
  else E_requestRootAccess cfgSettings (non_interactive args) (verbose args)
       :: if requestRootAccess w cfgSettings (non_interactive args)
                               (verbose args)
          then E_fatsortAvailable
               :: if fatsortAvailable w then find else [E_abort 1]
          else [E_abort 1].
Proof. phase_cases; reflexivity. Qed.

(** What [preflight] prints. *)
Lemma preflight_prints :
  filter is_print (trace (preflight w args cfgSettings)) =
  ((if no_fatsort args
       || requestRootAccess w cfgSettings (non_interactive args)
                            (verbose args)
    then if quiet args then []
         else [E_print "This may take a few minutes . . ." nl]
    else []) ++
   (if preflight_ok w args cfgSettings && verbose args
    then
      let '(dev, mnt) := findDeviceLocations w (destination args)
                           (non_interactive args) (verbose args)
                           (quiet args) in
      [E_print ("Success" ++ nl ++ nl
                ++ "Found device and mount locations:"
                ++ nl ++ "device: " ++ dev
                ++ nl ++ "mount: " ++ mnt) (nl ++ nl)]
    else []))%list.
Proof. unfold preflight_ok. phase_cases; reflexivity. Qed.

Lemma transfer_stages_no_print :
  never is_print (trace (transfer_stages w args cfgSettings mntLoc)) = true.
Proof. phase_cases; reflexivity. Qed.

Lemma cleanup_no_print :
  never is_print (trace (cleanup args cfgSettings tmpFiles)) = true.
Proof. phase_cases; reflexivity. Qed.

Lemma unmount_and_fatsort_no_print :
  never is_print (trace (unmount_and_fatsort w args devLoc mntLoc)) = true.
Proof. phase_cases; reflexivity. Qed.

(** The copy, the renaming and the temp-file deletion of the transfer
    stages. *)
Lemma transfer_stages_copy_rename :
  exists fromFiles toFiles,
    filter is_copy_rename_delete
           (trace (transfer_stages w args cfgSettings mntLoc)) =
    E_copyFiles fromFiles toFiles cfgSettings (non_interactive args)
                (verbose args) (quiet args)
    :: if armin args then [E_armin_rename mntLoc (quiet args)] else [].
Proof. phase_cases; eexists _, _; reflexivity. Qed.

Lemma cleanup_copy_rename :
  filter is_copy_rename_delete (trace (cleanup args cfgSettings tmpFiles))
  = [E_deleteFiles tmpFiles].
Proof. phase_cases; reflexivity. Qed.

(** A phase that aborts says why just before. *)
Lemma preflight_abort_message :
  preflight_ok w args cfgSettings = false ->
  exists pre msg,
    trace (preflight w args cfgSettings)
    = (pre ++ [E_talk_error msg (quiet args); E_abort 1])%list.
Proof.
  unfold preflight_ok.
  phase_cases; simpl; try discriminate; intros _;
    match goal with
    | |- exists pre msg, ?t = _ =>
        exists (firstn (length t - 2) t); eexists; reflexivity
    end.
Qed.

Lemma unmount_and_fatsort_abort_message :
  no_fatsort args
  || (unmount w devLoc (verbose args) && fatsort w devLoc (verbose args))
  = false ->
  exists pre msg,
    trace (unmount_and_fatsort w args devLoc mntLoc)
    = (pre ++ [E_talk_error msg (quiet args); E_abort 1])%list.
Proof.
  phase_cases; simpl; try discriminate; intros _;
    match goal with
    | |- exists pre msg, ?t = _ =>
        exists (firstn (length t - 2) t); eexists; reflexivity
    end.
Qed.
End MorePhases.

(** ** How a run ends *)

Lemma existsb_never p t : never p t = true -> existsb p t = false.
Proof. rewrite never_existsb. now destruct (existsb p t). Qed.

(** A run exits with status 1 exactly when it aborts, and with 0 otherwise;
    and nothing, not even a message, follows an abort. *)
Lemma abort_ends_the_run (w : World) :
  exit_status (main w)
  = (if existsb is_abort (trace (main w)) then 1 else 0)
  /\ after is_abort (trace (main w)) = [].
Proof.
  unfold exit_status. rewrite outcome_main, trace_main.
  cbn [app existsb after is_abort orb].
  destruct (configured w) as [c |]; [| now split].
  cbn [existsb after is_abort orb].
  rewrite existsb_app, after_app.
  destruct (preflight_aborts w (getRuntimeArguments w) c) as [-> ->].
  destruct (preflight_ok w (getRuntimeArguments w) c); cbn [negb orb];
    [| now split].
  rewrite !existsb_app, !after_app.
  rewrite (existsb_never _ _ (transfer_stages_no_abort _ _ _ _)).
  rewrite (existsb_never _ _ (cleanup_no_abort _ _ _)).
  destruct (unmount_and_fatsort_aborts w (getRuntimeArguments w)
              (fst (device w)) (snd (device w))) as [-> ->].
  destruct (no_fatsort _ || _); now split.
Qed.

Lemma filter_calls (p : Event -> bool) t :
  (forall e, is_message e = true -> p e = false) ->
  filter p (calls t) = filter p t.
Proof.
  intros Hp. unfold calls. induction t as [| e t IH]; [reflexivity |].
  simpl. destruct (is_message e) eqn:He; simpl; rewrite IH.
  - now rewrite (Hp e He).
  - reflexivity.
Qed.

(** The unmount and fatsort calls of a run. *)
Lemma unmount_calls_main (w : World) :
  let args := getRuntimeArguments w in
  let devLoc := fst (device w) in
  filter is_unmount_or_fatsort (trace (main w)) =
  if reaches_transfer w && negb (no_fatsort args)
  then E_unmount devLoc (verbose args)
       :: if unmount w devLoc (verbose args)
          then [E_fatsort devLoc (verbose args)] else []
  else [].
Proof.
  intros args devLoc. rewrite filter_main by (now intros []). fold args.
  unfold reaches_transfer, devLoc, device. fold args.
  destruct (configured w) as [c |]; [| reflexivity].
  rewrite (filter_never _ _ (preflight_no_unmount _ _ _)).
  rewrite preflight_outcome.
  destruct (preflight_ok w args c); [| reflexivity].
  destruct (findDeviceLocations _ _ _ _ _) as [d m].
  rewrite (filter_never _ _ (transfer_stages_no_unmount _ _ _ _)).
  destruct (transfer_stages_run w args c m) as (tmpFiles & -> & _).
  rewrite (filter_never _ _ (cleanup_no_unmount _ _ _)), cleanup_outcome.
  rewrite unmount_and_fatsort_calls. cbn [app fst andb].
  now destruct (no_fatsort args).
Qed.

(** X1. The exit status is 0 exactly when all the checks pass and, in a
    fatsorting run, the unmount and the fatsort succeed.  A run that exits
    with 0 has copied the files and deleted the temp files, has unmounted
    and then fatsorted the device of the destination when it fatsorts, and
    ends with the message "All done". *)
Theorem exit_status_0_all_done (w : World) :
  let args := getRuntimeArguments w in
  let devLoc := fst (device w) in
  let t := trace (main w) in
  exit_status (main w)
  = (if reaches_transfer w
        && (no_fatsort args
            || (unmount w devLoc (verbose args)
                && fatsort w devLoc (verbose args)))
     then 0 else 1)
  /\ (exit_status (main w) = 0 ->
      existsb is_copyFiles t = true
      /\ existsb is_deleteFiles t = true
      /\ (no_fatsort args = false ->
          filter is_unmount_or_fatsort t
          = [E_unmount devLoc (verbose args);
             E_fatsort devLoc (verbose args)])
      /\ last t E_getRuntimeArguments
         = E_talk_success "All done" (verbose args)).
Proof.
  intros args devLoc t. subst devLoc t.
  assert (Hst : exit_status (main w)
                = if reaches_transfer w
                     && (no_fatsort args
                         || (unmount w (fst (device w)) (verbose args)
                             && fatsort w (fst (device w)) (verbose args)))
                  then 0 else 1).
  { unfold exit_status, reaches_transfer. rewrite outcome_main.
    fold args.
    destruct (configured w) as [c |]; [| reflexivity].
    destruct (preflight_ok w args c); [| reflexivity].
    cbn [andb]. now destruct (no_fatsort args || _). }
  split; [exact Hst |].
  rewrite Hst. intros H0.
  destruct (reaches_transfer w) eqn:Hreach; [| discriminate].
  cbn [andb] in H0.
  destruct (no_fatsort args || _) eqn:Hdone; [clear H0 | discriminate].
  destruct (reaches_transfer_copies w) as [Hcopy Hdel].
  split; [now rewrite <- Hcopy |]. split; [now rewrite <- Hdel |]. split.
  - intros Hfs. rewrite unmount_calls_main.
    fold args. rewrite Hreach, Hfs in *. cbn [orb andb negb] in *.
    apply andb_true_iff in Hdone. destruct Hdone as [-> _]. reflexivity.
  - rewrite trace_main. fold args.
    destruct (reaches_transfer_configured w Hreach) as (c & Hcfg & Hok).
    fold args in Hok. rewrite Hcfg, Hok.
    rewrite Hdone. rewrite !app_comm_cons, !app_assoc.
    apply last_last.
Qed.

Lemma exit_status_0_all_done_witness :
  exit_status
    (main (sample_world (sample_args false false false false false)
                        0 true true "/dev/sdb1" true true)) = 0
  /\ filter is_unmount_or_fatsort
       (trace (main (sample_world (sample_args false false false false false)
                                  0 true true "/dev/sdb1" true true)))
     = [E_unmount "/dev/sdb1" false; E_fatsort "/dev/sdb1" false].
Proof.
  split; [reflexivity |].
  destruct (proj2 (exit_status_0_all_done
                     (sample_world (sample_args false false false false false)
                                   0 true true "/dev/sdb1" true true))
                  eq_refl) as (_ & _ & H & _).
  exact (H eq_refl).
Defined.

(** X2. The fatsort is only called after an unmount that succeeded, and on
    the same device: the one found for the destination. *)
Theorem fatsort_only_after_unmount (w : World) devLoc verb :
  In (E_fatsort devLoc verb) (trace (main w)) ->
  devLoc = fst (device w)
  /\ unmount w devLoc verb = true
  /\ filter is_unmount_or_fatsort (trace (main w))
     = [E_unmount devLoc verb; E_fatsort devLoc verb].
Proof.
  intros Hin.
  assert (Hin' : In (E_fatsort devLoc verb)
                    (filter is_unmount_or_fatsort (trace (main w)))).
  { apply filter_In. now split. }
  rewrite unmount_calls_main in *.
  destruct (reaches_transfer w && _); [| contradiction].
  destruct (unmount w (fst (device w)) _) eqn:Hum.
  - destruct Hin' as [H | [H | []]]; [discriminate |].
    injection H as <- <-. now rewrite Hum.
  - destruct Hin' as [H | []]. discriminate.
Qed.

Lemma fatsort_only_after_unmount_witness :
  unmount (sample_world (sample_args false false false false false)
                        0 true true "/dev/sdb1" true false)
          "/dev/sdb1" false = true.
Proof.
  apply (fatsort_only_after_unmount
           (sample_world (sample_args false false false false false)
                         0 true true "/dev/sdb1" true false)
           "/dev/sdb1" false).
  apply (In_of_filter is_unmount_or_fatsort). simpl. right. now left.
Defined.

(** ** The checks before the transfer (lines 54-99) *)

(** The calls of a run that stops in [preflight] are those of [preflight],
    after the first two. *)
Lemma calls_main_stopped (w : World) cfgSettings :
  configured w = Some cfgSettings ->
  preflight_ok w (getRuntimeArguments w) cfgSettings = false ->
  let args := getRuntimeArguments w in
  calls (trace (main w)) =
  E_getRuntimeArguments
  :: E_getConfigurationSettings (config_file args) (default args)
                                (armin args) (quiet args)
  :: calls (trace (preflight w args cfgSettings)).
Proof.
  intros Hcfg Hko args. subst args.
  rewrite trace_main, Hcfg, Hko, app_nil_r. reflexivity.
Qed.

(** X3. In a fatsorting run, a refused root access ends the run with status
    1 before fatsort is looked for and before the device is looked up; a
    missing fatsort ends it before the device is looked up.  In both cases
    the calls of the run are exactly the checks made so far and the
    abort. *)
Theorem failed_check_stops_the_run (w : World) cfgSettings :
  let args := getRuntimeArguments w in
  let root := E_requestRootAccess cfgSettings (non_interactive args)
                                  (verbose args) in
  configured w = Some cfgSettings ->
  no_fatsort args = false ->
  (requestRootAccess w cfgSettings (non_interactive args) (verbose args)
   = false ->
   exit_status (main w) = 1
   /\ calls (trace (main w))
      = [E_getRuntimeArguments;
         E_getConfigurationSettings (config_file args) (default args)
                                    (armin args) (quiet args);
         root; E_abort 1])
  /\ (requestRootAccess w cfgSettings (non_interactive args) (verbose args)
      = true ->
      fatsortAvailable w = false ->
      exit_status (main w) = 1
      /\ calls (trace (main w))
         = [E_getRuntimeArguments;
            E_getConfigurationSettings (config_file args) (default args)
                                       (armin args) (quiet args);
            root; E_fatsortAvailable; E_abort 1]).
Proof.
  intros args root Hcfg Hfs. subst root.
  assert (Hst : preflight_ok w args cfgSettings = false ->
                exit_status (main w) = 1).
  { intros Hko. unfold exit_status. rewrite outcome_main. fold args.
    now rewrite Hcfg, Hko. }
  split.
  - intros Hroot.
    assert (Hko : preflight_ok w args cfgSettings = false).
    { unfold preflight_ok. now rewrite Hfs, Hroot. }
    split; [now apply Hst |].
    rewrite (calls_main_stopped w cfgSettings Hcfg Hko). fold args.
    rewrite preflight_calls, Hfs, Hroot. reflexivity.
  - intros Hroot Havail.
    assert (Hko : preflight_ok w args cfgSettings = false).
    { unfold preflight_ok. now rewrite Hfs, Hroot, Havail. }
    split; [now apply Hst |].
    rewrite (calls_main_stopped w cfgSettings Hcfg Hko). fold args.
    rewrite preflight_calls, Hfs, Hroot, Havail. reflexivity.
Qed.

Lemma failed_check_stops_the_run_witness :
  exit_status
    (main (sample_world (sample_args false false false false false)
                        0 false true "/dev/sdb1" true true)) = 1.
Proof.
  exact (proj1 (proj1 (failed_check_stops_the_run
                         (sample_world
                            (sample_args false false false false false)
                            0 false true "/dev/sdb1" true true)
                         {| getint := fun _ => 0 |} eq_refl eq_refl)
                      eq_refl)).
Defined.

(** ** Armin mode (lines 152-158) *)

(** The copy, the renaming and the temp-file deletion of a run. *)
Lemma copy_rename_delete_main (w : World) cfgSettings :
  configured w = Some cfgSettings ->
  preflight_ok w (getRuntimeArguments w) cfgSettings = true ->
  let args := getRuntimeArguments w in
  exists fromFiles toFiles tmpFiles,
    filter is_copy_rename_delete (trace (main w)) =
    (E_copyFiles fromFiles toFiles cfgSettings (non_interactive args)
                 (verbose args) (quiet args)
     :: (if armin args
         then [E_armin_rename (snd (device w)) (quiet args)] else [])
     ++ [E_deleteFiles tmpFiles])%list.
Proof.
  intros Hcfg Hok args. fold args in Hok.
  rewrite filter_main by (now intros []). fold args. rewrite Hcfg.
  rewrite (filter_never is_copy_rename_delete (trace (preflight _ _ _))).
  2: { apply (never_weaken _ is_transfer_work);
       [now intros [] | apply preflight_no_work]. }
  rewrite preflight_outcome, Hok. unfold device. fold args.
  destruct (findDeviceLocations _ _ _ _ _) as [devLoc mntLoc].
  destruct (transfer_stages_copy_rename w args cfgSettings mntLoc)
    as (fromFiles & toFiles & ->).
  destruct (transfer_stages_run w args cfgSettings mntLoc)
    as (tmpFiles & -> & _).
  rewrite cleanup_copy_rename, cleanup_outcome.
  rewrite (filter_never is_copy_rename_delete
                        (trace (unmount_and_fatsort _ _ _ _))).
  2: { apply (never_weaken _ is_transfer_work);
       [now intros [] | apply unmount_and_fatsort_no_work]. }
  exists fromFiles, toFiles, tmpFiles. cbn [snd app].
  now rewrite ?app_nil_r.
Qed.

(** X4. In armin mode a run that reaches the transfer renames the
    directories of the mount location once, after the copy and before the
    temp files are deleted; without armin mode, or when the run stops before
    the transfer, [armin.rename] is never called. *)
Theorem armin_rename_after_copy (w : World) :
  let args := getRuntimeArguments w in
  let t := trace (main w) in
  (reaches_transfer w && armin args = false ->
   never is_armin_rename t = true)
  /\ (reaches_transfer w && armin args = true ->
      exists fromFiles toFiles cfgSettings tmpFiles,
        filter is_copy_rename_delete t =
        [E_copyFiles fromFiles toFiles cfgSettings (non_interactive args)
                     (verbose args) (quiet args);
         E_armin_rename (snd (device w)) (quiet args);
         E_deleteFiles tmpFiles]).
Proof.
  intros args t. subst t. split.
  - intros H.
    rewrite <- (never_filter is_armin_rename is_copy_rename_delete)
      by (now intros []).
    destruct (reaches_transfer w) eqn:Hreach.
    + destruct (reaches_transfer_configured w Hreach) as (c & Hcfg & Hok).
      destruct (copy_rename_delete_main w c Hcfg Hok)
        as (f & t' & tmp & ->).
      fold args. cbn [andb] in H. now rewrite H.
    + rewrite (never_filter is_armin_rename is_copy_rename_delete)
        by (now intros []).
      apply (never_weaken _ is_transfer_work); [now intros [] |].
      now apply no_work_unless_reached.
  - intros H. apply andb_true_iff in H. destruct H as [Hreach Harmin].
    destruct (reaches_transfer_configured w Hreach) as (c & Hcfg & Hok).
    destruct (copy_rename_delete_main w c Hcfg Hok) as (f & t' & tmp & ->).
    fold args. rewrite Harmin. now exists f, t', c, tmp.
Qed.

Lemma armin_rename_after_copy_witness :
  never is_armin_rename
        (trace (main (sample_world
                        (sample_args false false false false false)
                        0 true true "/dev/sdb1" true true))) = true.
Proof.
  exact (proj1 (armin_rename_after_copy
                  (sample_world (sample_args false false false false false)
                                0 true true "/dev/sdb1" true true))
               eq_refl).
Defined.

(** ** Settings other than 0 and 1 (lines 170-174) *)

(** X5. The [DeleteSources] setting is not checked against 0, 1 and 2: in a
    run that reaches the cleanup, every setting other than 0 and 1 behaves
    like the prompting one.  An interactive run calls [deletePaths] with the
    flag [DeleteSources - 1], which requests a prompt; a non-interactive run
    does not call it. *)
Theorem other_settings_prompt (w : World) (d : Z) :
  reaches_transfer w = true ->
  deleteSourceSetting w = Some d ->
  d <> 0 -> d <> 1 ->
  let args := getRuntimeArguments w in
  truthy (d - 1) = true
  /\ filter is_deletePaths (trace (main w))
     = if non_interactive args then []
       else [E_deletePaths (sources args) (d - 1) (verbose args)
                           (quiet args)].
Proof.
  intros Hreach Hd H0 H1 args.
  assert (Ht : truthy d = true).
  { unfold truthy. apply negb_true_iff. now apply Z.eqb_neq. }
  assert (Ht1 : truthy (d - 1) = true).
  { unfold truthy. apply negb_true_iff. apply Z.eqb_neq. lia. }
  split; [exact Ht1 |].
  rewrite deletePaths_main. fold args.
  destruct (deleteSourceSetting_configured w d Hd) as (c & Hcfg & Hc).
  destruct (reaches_transfer_configured w Hreach) as (c' & Hcfg' & Hok).
  rewrite Hcfg in Hcfg'. injection Hcfg' as <-. fold args in Hok.
  rewrite Hcfg. cbv zeta. rewrite Hc, Hok, Ht, Ht1.
  now destruct (non_interactive args).
Qed.

Lemma other_settings_prompt_witness :
  filter is_deletePaths
         (trace (main (sample_world
                         (sample_args false false false false false)
                         (-3) true true "/dev/sdb1" true true)))
  = [E_deletePaths ["/tmp/a.mp3"; "/tmp/b.wav"] (-4) false false].
Proof.
  refine (proj2 (other_settings_prompt
                   (sample_world (sample_args false false false false false)
                                 (-3) true true "/dev/sdb1" true true)
                   (-3) eq_refl eq_refl _ _)); lia.
Defined.

(** ** What [main] prints (lines 70-72 and 101-105) *)

Lemma prints_main (w : World) :
  filter is_print (trace (main w)) =
  match configured w with
  | None => []
  | Some cfgSettings =>
      filter is_print (trace (preflight w (getRuntimeArguments w)
                                        cfgSettings))
  end.
Proof.
  rewrite trace_main, filter_app. cbn [filter is_print app].
  destruct (configured w) as [c |]; [| reflexivity].
  cbn [filter is_print]. rewrite filter_app.
  destruct (preflight_ok w (getRuntimeArguments w) c);
    [| now rewrite app_nil_r].
  rewrite !filter_app.
  rewrite (filter_never _ _ (transfer_stages_no_print _ _ _ _)).
  rewrite (filter_never _ _ (cleanup_no_print _ _ _)).
  rewrite (filter_never _ _ (unmount_and_fatsort_no_print _ _ _ _)).
  destruct (no_fatsort _ || _); cbn [filter is_print app];
    now rewrite app_nil_r.
Qed.

(** X6. [--quiet] silences the notice "This may take a few minutes" but not
    the report of [--verbose]: with both flags, a run that finds the device
    still prints the device and mount locations, and this is all that a
    quiet run prints. *)
Theorem quiet_keeps_device_report (w : World) :
  let args := getRuntimeArguments w in
  quiet args = true ->
  filter is_print (trace (main w)) =
  if reaches_transfer w && verbose args
  then [E_print ("Success" ++ nl ++ nl
                 ++ "Found device and mount locations:"
                 ++ nl ++ "device: " ++ fst (device w)
                 ++ nl ++ "mount: " ++ snd (device w)) (nl ++ nl)]
  else [].
Proof.
  intros args Hq. rewrite prints_main. unfold reaches_transfer, device.
  fold args.
  destruct (configured w) as [c |]; [| reflexivity].
  rewrite preflight_prints, Hq.
  destruct (findDeviceLocations _ _ _ _ _) as [dev mnt]. cbn [fst snd].
  now destruct (no_fatsort args || _).
Qed.

Lemma quiet_keeps_device_report_witness :
  existsb is_print
          (trace (main (sample_world
                          (sample_args false true true false false)
                          0 true true "/dev/sdb1" true true))) = true.
Proof.
  rewrite <- (existsb_filter is_print is_print) by (now intros []).
  rewrite (quiet_keeps_device_report
             (sample_world (sample_args false true true false false)
                           0 true true "/dev/sdb1" true true) eq_refl).
  reflexivity.
Defined.

(** ** What the filter and the conversion cannot change *)

Lemma filter_filter_sub (p q : Event -> bool) t :
  (forall e, p e = true -> q e = true) ->
  filter p (filter q t) = filter p t.
Proof.
  intros Hpq. induction t as [| e t IH]; [reflexivity |].
  simpl. destruct (q e) eqn:Hq; simpl; rewrite IH; [reflexivity |].
  destruct (p e) eqn:Hp; [| reflexivity].
  rewrite (Hpq e Hp) in Hq. discriminate.
Qed.

(** X7. The directories to create are those of the plan, and the paths to
    delete are the sources of the command line: whatever the filter and the
    conversion do to the file lists, [createDirectories] and [deletePaths]
    are called with the same arguments, and the run ends with the same
    status. *)
Theorem file_stages_do_not_change_directories (w : World) filterOut convert :
  let w' := with_file_stages filterOut convert w in
  filter is_createDirectories (trace (main w'))
  = filter is_createDirectories (trace (main w))
  /\ filter is_deletePaths (trace (main w'))
     = filter is_deletePaths (trace (main w))
  /\ exit_status (main w') = exit_status (main w).
Proof.
  intros w'. split; [| split].
  - rewrite <- (filter_filter_sub is_createDirectories is_stage
                                  (trace (main w')))
      by (now intros []).
    rewrite <- (filter_filter_sub is_createDirectories is_stage
                                  (trace (main w)))
      by (now intros []).
    rewrite !stages_main.
    change (configured w') with (configured w).
    destruct (configured w) as [c |]; [| reflexivity].
    change (preflight_ok w' (getRuntimeArguments w') c)
      with (preflight_ok w (getRuntimeArguments w) c).
    destruct (preflight_ok w (getRuntimeArguments w) c); [| reflexivity].
    unfold expected_stages.
    change (getCorrespondingPathsLists w') with (getCorrespondingPathsLists w).
    change (getRuntimeArguments w') with (getRuntimeArguments w).
    destruct (getCorrespondingPathsLists _ _ _ _ _) as [[[x f0] dirs] t0].
    destruct (filterOutExtensions w' f0 t0 _ _) as [f1 t1].
    destruct (convertAudioFiles w' f1 t1 _ _ _ _) as [[f2 t2] tmp].
    destruct (filterOutExtensions w f0 t0 _ _) as [f1' t1'].
    destruct (convertAudioFiles w f1' t1' _ _ _ _) as [[f2' t2'] tmp'].
    reflexivity.
  - rewrite !deletePaths_main. reflexivity.
  - unfold exit_status. rewrite !outcome_main. reflexivity.
Qed.

(** ** The order of the calls *)

Lemma ascending_app (a b c d : nat) (l1 l2 : list nat) :
  ascending l1 = true -> within a b l1 = true ->
  ascending l2 = true -> within c d l2 = true ->
  (b < c)%nat ->
  ascending (l1 ++ l2) = true.
Proof.
  intros H1 W1 H2 W2 Hbc.
  induction l1 as [| x l1 IH]; [exact H2 |].
  simpl in W1. apply andb_true_iff in W1. destruct W1 as [Wx W1].
  destruct l1 as [| y l1].
  - destruct l2 as [| z l2]; [reflexivity |].
    simpl in W2 |- *. apply andb_true_iff in W2. destruct W2 as [Wz _].
    apply andb_true_iff in Wx, Wz. destruct Wx as [_ Wx], Wz as [Wz _].
    apply Nat.leb_le in Wx, Wz.
    apply andb_true_iff. split; [apply Nat.ltb_lt; lia | exact H2].
  - simpl in H1. apply andb_true_iff in H1. destruct H1 as [Hxy H1].
    change ((x :: y :: l1) ++ l2)%list with (x :: y :: (l1 ++ l2))%list.
    change (ascending (x :: y :: (l1 ++ l2))%list)
      with ((x <? y)%nat && ascending ((y :: l1) ++ l2)%list).
    rewrite Hxy. now apply IH.
Qed.

Lemma within_weaken lo hi lo' hi' l :
  (lo' <= lo)%nat -> (hi <= hi')%nat ->
  within lo hi l = true -> within lo' hi' l = true.
Proof.
  intros Hlo Hhi. unfold within. rewrite !forallb_forall.
  intros H n Hn. specialize (H n Hn).
  apply andb_true_iff in H. destruct H as [H1 H2].
  apply Nat.leb_le in H1, H2.
  apply andb_true_iff. split; apply Nat.leb_le; lia.
Qed.

(** Two ascending runs of ranks, the first below the second, make one. *)
Lemma ordered_app (a b c d : nat) (l1 l2 : list nat) :
  ascending l1 = true /\ within a b l1 = true ->
  ascending l2 = true /\ within c d l2 = true ->
  (a <= b)%nat -> (b < c)%nat -> (c <= d)%nat ->
  ascending (l1 ++ l2) = true /\ within a d (l1 ++ l2) = true.
Proof.
  intros [H1 W1] [H2 W2] Hab Hbc Hcd. split.
  - exact (ascending_app a b c d l1 l2 H1 W1 H2 W2 Hbc).
  - unfold within. rewrite forallb_app. apply andb_true_iff. split.
    + apply (within_weaken a b); [lia | lia | exact W1].
    + apply (within_weaken c d); [lia | lia | exact W2].
Qed.

Lemma ranks_app t1 t2 :
  map rank (calls (t1 ++ t2))
  = (map rank (calls t1) ++ map rank (calls t2))%list.
Proof. unfold calls. now rewrite filter_app, map_app. Qed.

(** X8. The calls of a run are made in the order of the script, each at
    most once: root access, fatsort check, device lookup, plan, filter,
    conversion, directories, copy, renaming, temp files, sources, unmount,
    fatsort, with an abort only as the last call. *)
Theorem main_in_script_order (w : World) :
  in_script_order (trace (main w)) = true.
Proof.
  unfold in_script_order. rewrite trace_main.
  set (args := getRuntimeArguments w).
  rewrite ranks_app.
  destruct (configured w) as [c |]; [| reflexivity].
  change (?e :: ?t ++ ?t')%list with ([e] ++ t ++ t')%list.
  rewrite !ranks_app. cbn [calls filter is_message negb map app].
  pose proof (preflight_ranks w args c) as Hpre. cbv zeta in Hpre.
  assert (Hhead : ascending [0; 1]%nat = true
                  /\ within 0 1 [0; 1]%nat = true) by now split.
  destruct (preflight_ok w args c).
  - rewrite !ranks_app.
    pose proof (transfer_stages_ranks w args c (snd (device w))) as Hts.
    pose proof (cleanup_ranks args c
                  (returned [] (transfer_stages w args c (snd (device w)))))
      as Hcl.
    pose proof (unmount_and_fatsort_ranks w args (fst (device w))
                                          (snd (device w))) as Hum.
    cbv zeta in Hts, Hcl, Hum.
    assert (Hz : map rank
                   (calls (if no_fatsort args
                              || (unmount w (fst (device w)) (verbose args)
                                  && fatsort w (fst (device w))
                                             (verbose args))
                           then [E_talk_success "All done" (verbose args)]
                           else [])) = []).
    { now destruct (no_fatsort args || _). }
    rewrite Hz, app_nil_r.
    pose proof (ordered_app 11 12 13 15 _ _ Hcl Hum) as H1.
    pose proof (ordered_app 5 10 11 15 _ _ Hts
                            (H1 ltac:(lia) ltac:(lia) ltac:(lia))) as H2.
    pose proof (ordered_app 2 4 5 15 _ _ Hpre
                            (H2 ltac:(lia) ltac:(lia) ltac:(lia))) as H3.
    exact (proj1 (ordered_app 0 1 2 15 _ _ Hhead
                              (H3 ltac:(lia) ltac:(lia) ltac:(lia))
                              ltac:(lia) ltac:(lia) ltac:(lia))).
  - cbn [calls filter map]. rewrite app_nil_r.
    exact (proj1 (ordered_app 0 1 2 15 _ _ Hhead Hpre
                              ltac:(lia) ltac:(lia) ltac:(lia))).
Qed.

(** ** What a failing run tells the user *)

(** X9. When the configuration cannot be read, [main] aborts without a
    message of its own: the run is the four calls below.  Every other
    failing run ends with an error message, issued under the [quiet] flag,
    and then the abort. *)
Theorem abort_messages (w : World) :
  let args := getRuntimeArguments w in
  match configured w with
  | None =>
      trace (main w)
      = [E_getRuntimeArguments;
         E_talk_status ("Reading config file '" ++ config_file args ++ "'")
                       (verbose args);
         E_getConfigurationSettings (config_file args) (default args)
                                    (armin args) (quiet args);
         E_abort 1]
  | Some _ =>
      exit_status (main w) = 1 ->
      exists pre msg,
        trace (main w)
        = (pre ++ [E_talk_error msg (quiet args); E_abort 1])%list
  end.
Proof.
  intros args. unfold exit_status. rewrite outcome_main, trace_main.
  fold args.
  destruct (configured w) as [c |]; [| reflexivity].
  destruct (preflight_ok w args c) eqn:Hok.
  - destruct (no_fatsort args || _) eqn:Hdone; [discriminate |].
    intros _.
    destruct (unmount_and_fatsort_abort_message
                w args (fst (device w)) (snd (device w)) Hdone)
      as (pre & msg & ->).
    eexists; exists msg.
    rewrite app_nil_r, !app_comm_cons, !app_assoc. reflexivity.
  - intros _.
    destruct (preflight_abort_message w args c Hok) as (pre & msg & ->).
    eexists; exists msg.
    rewrite app_nil_r, !app_comm_cons, !app_assoc. reflexivity.
Qed.

Lemma abort_messages_witness :
  exists pre msg,
    trace (main (sample_world (sample_args false false false false false)
                              0 true true "" true true))
    = (pre ++ [E_talk_error msg false; E_abort 1])%list.
Proof.
  exact (abort_messages
           (sample_world (sample_args false false false false false)
                         0 true true "" true true) eq_refl).
Defined.

(** ** The arguments of the calls *)

Ltac all_well_passed :=
  phase_cases; repeat constructor; simpl; auto.

Lemma preflight_well_passed (w : World) args cfgSettings :
  Forall (well_passed args cfgSettings)
         (trace (preflight w args cfgSettings)).
Proof. all_well_passed. Qed.

Lemma transfer_stages_well_passed (w : World) args cfgSettings mntLoc :
  Forall (well_passed args cfgSettings)
         (trace (transfer_stages w args cfgSettings mntLoc)).
Proof. all_well_passed. Qed.

Lemma cleanup_well_passed args cfgSettings tmpFiles :
  Forall (well_passed args cfgSettings)
         (trace (cleanup args cfgSettings tmpFiles)).
Proof. all_well_passed. Qed.

Lemma unmount_and_fatsort_well_passed (w : World) args cfgSettings
      devLoc mntLoc :
  Forall (well_passed args cfgSettings)
         (trace (unmount_and_fatsort w args devLoc mntLoc)).
Proof. all_well_passed. Qed.

(** X10. Every call of a run is given the command line and the settings as
    they were read: the flags [non_interactive], [verbose] and [quiet], the
    sources and the destination are those of the runtime arguments, the
    settings are those that [getConfigurationSettings] returned; and [main]
    issues its status and success messages under [verbose] and its error
    messages under [quiet]. *)
Theorem arguments_passed_unchanged (w : World) cfgSettings :
  configured w = Some cfgSettings ->
  Forall (well_passed (getRuntimeArguments w) cfgSettings) (trace (main w)).
Proof.
  intros Hcfg. rewrite trace_main, Hcfg.
  set (args := getRuntimeArguments w).
  apply Forall_app. split; [repeat constructor; simpl; auto |].
  constructor; [reflexivity |].
  apply Forall_app. split; [apply preflight_well_passed |].
  destruct (preflight_ok w args cfgSettings); [| constructor].
  apply Forall_app. split; [apply transfer_stages_well_passed |].
  apply Forall_app. split; [apply cleanup_well_passed |].
  apply Forall_app. split; [apply unmount_and_fatsort_well_passed |].
  destruct (no_fatsort args || _); repeat constructor.
Qed.

Lemma arguments_passed_unchanged_witness :
  Forall (well_passed (sample_args true false true false true)
                      {| getint := fun _ => 1 |})
         (trace (main (sample_world (sample_args true false true false true)
                                    1 true true "/dev/sdb1" true true))).
Proof.
  exact (arguments_passed_unchanged
           (sample_world (sample_args true false true false true)
                         1 true true "/dev/sdb1" true true)
           {| getint := fun _ => 1 |} eq_refl).
Defined.
